(** * The DHT node of lbry.go: request dispatch, decoding and start-up

    A shallow embedding of package [dht] (the engine file: constants,
    [Config], [New], [handle], [handleRequest], [handleResponse],
    [handleError], [send], [getArgs], [argsToString]) together with the
    properties its specification states about it.

    Go strings are byte strings and are modelled by [string]; Go integers
    that only carry small values (ports, lengths, type tags) are modelled by
    [Z] and [nat].  Effects (the socket, the routing table, the peer store,
    the logger, run-time panics) are threaded through a state-and-panic
    monad [M]. *)

From Stdlib Require Import ZArith NArith Ascii String List Sorting.Sorted.
From stdpp Require Import base option gmap strings pretty list sorting fin_maps.

Set Warnings "-register-all".

Local Open Scope string_scope.
Local Open Scope Z_scope.

(** ** Go primitives used by the engine *)

Module Go.

(** [len(s)] of a Go string: its number of bytes. *)
Definition len (s : string) : Z := Z.of_nat (String.length s).

(** A run-time panic aborts the goroutine; it is an outcome of its own. *)
Inductive result (A : Type) : Type :=
| Ok (a : A)
| Panic (reason : string).
Global Arguments Ok {A} a.
Global Arguments Panic {A} reason.

(** The slice expression [s[:n]]: a run-time panic when [n > len(s)]. *)
Definition sliceTo (n : nat) (s : string) : result string :=
  if (n <=? String.length s)%nat
  then Ok (String.substring 0 n s)
  else Panic "slice bounds out of range".

Definition hexdigit (n : N) : ascii :=
  match String.get (N.to_nat n) "0123456789abcdef" with
  | Some c => c
  | None => "0"%char
  end.

(** [hex.EncodeToString]: two lower-case digits per byte. *)
Fixpoint hexEncodeToString (s : string) : string :=
  match s with
  | EmptyString => EmptyString
  | String c rest =>
      let n := N_of_ascii c in
      String (hexdigit (n / 16)) (String (hexdigit (n mod 16)) (hexEncodeToString rest))
  end.

(** [strings.Join]. *)
Fixpoint join (l : list string) (sep : string) : string :=
  match l with
  | [] => ""
  | [a] => a
  | a :: rest => a ++ sep ++ join rest sep
  end.

(** [time.Second], in nanoseconds as [time.Duration] counts them. *)
Definition Second : Z := 1000000000.

End Go.

(** ** Compiled-in constants (lines 16-28 of the engine) *)

Definition network : string := "udp4".

Definition alpha : Z := 3.
Definition nodeIDLength : Z := 48.
Definition bucketSize : Z := 20.

Definition tExpire : Z := 86400 * Go.Second.
Definition tRefresh : Z := 3600 * Go.Second.
Definition tReplicate : Z := 3600 * Go.Second.
Definition tRepublish : Z := 86400 * Go.Second.

Definition numBuckets : Z := nodeIDLength * 8.
Definition compactNodeInfoLength : Z := nodeIDLength + 6.

(** ** Identifiers and distance

    The type [bitmap] and its operations are declared outside the engine
    file.  The spec (Data model, NodeID / Key) gives a fixed-length bit string
    of 48 bytes whose distance is the bitwise XOR read as an unsigned
    integer. *)

(** Modelled from the spec: the type [bitmap], missing from the engine file;
    "a fixed-length bit string (B bits, e.g. 384 bits / 48 bytes)", kept as
    its raw bytes. *)
Definition bitmap : Type := string.

(** The strings that are identifiers: those of 48 bytes. *)
Definition wellFormedID (s : string) : Prop := Go.len s = nodeIDLength.

(** Modelled from the spec: [newBitmapFromString], missing from the engine
    file; the identifier with the given raw bytes.  What it does with a
    string that is not 48 bytes long is not known; the properties that go
    through it assume that length. *)
Definition newBitmapFromString (data : string) : bitmap := data.

(** Modelled from the spec: [bitmap.RawString], missing from the engine file;
    the raw bytes of an identifier. *)
Definition RawString (b : bitmap) : string := b.

(** Modelled from the spec: [bitmap.Hex], missing from the engine file; the
    hex form of the raw bytes. *)
Definition Hex (b : bitmap) : string := Go.hexEncodeToString b.

(** The bytes of a string as a big-endian number. *)
Fixpoint bytesToN (acc : N) (s : string) : N :=
  match s with
  | EmptyString => acc
  | String c rest => bytesToN (acc * 256 + N_of_ascii c)%N rest
  end.

(** Modelled from the spec: [distance(a, b)], missing from the engine file;
    "their bitwise XOR interpreted as an unsigned integer". *)
Definition distance (a b : bitmap) : N := N.lxor (bytesToN 0 a) (bytesToN 0 b).

(** Modelled from the spec: [prefixLength(a, b)], missing from the engine
    file; the "number of leading equal bits" among the B = 384 bits. *)
Definition prefixLength (a b : bitmap) : nat :=
  (Z.to_nat numBuckets - N.size_nat (distance a b))%nat.

(** ** Contacts *)

(** Modelled from the spec: the declaration of the struct [Node], missing
    from the engine file; the spec's Contact, with the fields of the literals
    [Node{id: ..., ip: ..., port: ...}] at lines 90, 287, 307 and 316. *)
Record Node : Type := { id : bitmap; ip : string; port : Z }.

Global Instance Node_eq_dec : EqDecision Node.
Proof. solve_decision. Defined.

(** ** Routing table

    [RoutingTable], [newRoutingTable], [Update] and [FindClosest] are declared
    outside the engine file.  The model follows the spec's Routing Table
    contract: buckets indexed by the shared-prefix length with the local id,
    each ordered freshest first and holding up to [bucketSize] contacts; only
    the bucket covering the local id's range (the last one) is ever split. *)

(** Modelled from the spec: a bucket of the routing table, missing from the
    engine file; its contacts, "front = freshest".  The last-touched
    timestamp, which the contract of [Update] does not mention and only
    [StaleBuckets] reads, is left out. *)
Record Bucket : Type := { contacts : list Node }.

(** Modelled from the spec: the type [RoutingTable], missing from the engine
    file; the local node and "an ordered collection of up to numBuckets
    buckets, conceptually indexed by the shared-prefix length with the local
    id". *)
Record RoutingTable : Type := { rtNode : Node; buckets : list Bucket }.

(** Modelled from the spec: [newRoutingTable], missing from the engine file;
    one bucket covering the whole identifier space, buckets being "created
    only for the range containing the local id". *)
Definition newRoutingTable (node : Node) : RoutingTable :=
  {| rtNode := node; buckets := [ {| contacts := [] |} ] |}.

(** Equality of identifiers. *)
Definition sameID (a b : bitmap) : bool := String.eqb a b.

(** Modelled from the spec: "if contact already present", by its id. *)
Definition present (c : Node) (b : Bucket) : bool :=
  existsb (fun x => sameID (id x) (id c)) (contacts b).

(** Modelled from the spec: "move to front"; "a contact with the same id but
    different network address replaces the old one". *)
Definition moveToFront (c : Node) (b : Bucket) : Bucket :=
  {| contacts := c :: List.filter (fun x => negb (sameID (id x) (id c))) (contacts b) |}.

(** Modelled from the spec: "insert at front". *)
Definition pushFront (c : Node) (b : Bucket) : Bucket :=
  {| contacts := c :: contacts b |}.

(** Modelled from the spec: "locate target bucket by prefix length with local
    id"; bucket [i] below the last holds the contacts sharing exactly [i]
    leading bits with the local id, the last bucket all closer ones. *)
Definition bucketIndex (local : bitmap) (bs : list Bucket) (target : bitmap) : nat :=
  Nat.min (prefixLength local target) (length bs - 1).

(** Modelled from the spec: "split it into two buckets by the next prefix
    bit", for the last bucket, the one that covers the local id's range. *)
Definition splitLast (local : bitmap) (bs : list Bucket) : list Bucket :=
  match List.last (map Some bs) None with
  | None => bs
  | Some b =>
      let depth := (length bs - 1)%nat in
      let far := List.filter (fun x => (prefixLength local (id x) <=? depth)%nat) (contacts b) in
      let near := List.filter (fun x => negb (prefixLength local (id x) <=? depth)%nat) (contacts b) in
      (List.removelast bs ++ [ {| contacts := far |}; {| contacts := near |} ])%list
  end.

(** Modelled from the spec: the insertion of [Update]; "if contact already
    present, move to front; else if bucket has room, insert at front; else if
    bucket covers the local id's range, split it into two buckets by the next
    prefix bit and retry insertion; else ... the new contact is dropped".
    [fuel] bounds the number of splits, of which there are fewer than
    [numBuckets]. *)
Fixpoint insertContact (fuel : nat) (local : bitmap) (c : Node) (bs : list Bucket)
  : list Bucket :=
  let i := bucketIndex local bs (id c) in
  match bs !! i with
  | None => bs
  | Some b =>
      if present c b then <[i := moveToFront c b]> bs
      else if (length (contacts b) <? Z.to_nat bucketSize)%nat then <[i := pushFront c b]> bs
      else if ((i =? length bs - 1)%nat && (length bs <? Z.to_nat numBuckets)%nat)%bool then
        match fuel with
        | O => bs
        | S fuel' => insertContact fuel' local c (splitLast local bs)
        end
      else bs
  end.

(** Modelled from the spec: [RoutingTable.Update], missing from the engine
    file; "If the contact's id equals the local id, no-op. Otherwise locate
    target bucket" and insert. *)
Definition Update (rt : RoutingTable) (c : Node) : RoutingTable :=
  if sameID (id c) (id (rtNode rt)) then rt
  else {| rtNode := rtNode rt;
          buckets := insertContact (Z.to_nat numBuckets) (id (rtNode rt)) c (buckets rt) |}.

(** Modelled from the spec: every contact the routing table holds, bucket by
    bucket. *)
Definition allContacts (rt : RoutingTable) : list Node :=
  concat (map contacts (buckets rt)).

(** Modelled from the spec: the order of [FindClosest], "ascending distance
    to target"; of two contacts at one distance the one met first stays
    first. *)
Fixpoint insertByDistance (target : bitmap) (c : Node) (l : list Node) : list Node :=
  match l with
  | [] => [c]
  | x :: rest =>
      if (distance target (id c) <=? distance target (id x))%N
      then c :: l
      else x :: insertByDistance target c rest
  end.

(** Modelled from the spec: the contacts in "ascending distance to target". *)
Definition sortByDistance (target : bitmap) (l : list Node) : list Node :=
  foldr (insertByDistance target) [] l.

(** Modelled from the spec: [RoutingTable.FindClosest], missing from the
    engine file; "returns up to count contacts ordered by ascending distance
    to target". *)
Definition FindClosest (rt : RoutingTable) (target : bitmap) (count : Z) : list Node :=
  take (Z.to_nat count) (sortByDistance target (allContacts rt)).

(** ** Record store

    [peerStore], [newPeerStore], [Insert] and [Get] are declared outside the
    engine file.  The spec's Record Store keeps, per key, one record per
    publisher with the time it was stored. *)

(** Modelled from the spec: a record of the store, missing from the engine
    file; "{key, value, storedAt, expiresAt = storedAt + tExpire}", kept
    under its key. *)
Record PeerRecord : Type := { value : string; storedAt : Z }.

(** Modelled from the spec: "expiresAt: storedAt + tExpire". *)
Definition expiresAt (r : PeerRecord) : Z := storedAt r + tExpire.

(** Modelled from the spec: the type [peerStore], missing from the engine
    file; a "key -> list-of-values mapping". *)
Record peerStore : Type := { records : gmap string (list PeerRecord) }.

(** Modelled from the spec: [newPeerStore], missing from the engine file; the
    store with no record. *)
Definition newPeerStore : peerStore := {| records := ∅ |}.

(** Modelled from the spec: [peerStore.Insert], missing from the engine file;
    "appends or refreshes a record for key; if a record already exists from
    the same publisher, reset its expiry rather than duplicating". *)
Definition Insert (s : peerStore) (now : Z) (key publisher : string) : peerStore :=
  let rs := default [] (records s !! key) in
  let fresh := {| value := publisher; storedAt := now |} in
  if existsb (fun r => String.eqb (value r) publisher) rs
  then {| records :=
            <[key := map (fun r => if String.eqb (value r) publisher then fresh else r) rs]>
              (records s) |}
  else {| records := <[key := (rs ++ [fresh])%list]> (records s) |}.

(** Modelled from the spec: [peerStore.Get], missing from the engine file;
    the "list of publisher contacts, ordered by insertion recency" (the most
    recent first); "empty list if key unknown". *)
Definition Get (s : peerStore) (key : string) : list string :=
  rev (map value (default [] (records s !! key))).

(** ** Messages

    The declarations of [Request], [Response], [Error] and of the [Message]
    interface are outside the engine file.  The records carry the fields the
    engine reads and writes, with the shapes of the spec's External
    Interfaces. *)

Module StoreArgs.
(** Modelled from the spec: the declaration of [Request.StoreArgs], missing
    from the engine file; "a structured payload with content-key and
    publisher-id", read at lines 232 and 236. *)
Record t : Type := { BlobHash : string; NodeID : string }.
End StoreArgs.

Module Request.
(** Modelled from the spec: the declaration of [Request], missing from the
    engine file; "{transactionID, senderNodeID, method, args: ordered
    sequence of strings}" and the payload of [store]. *)
Record t : Type :=
  { ID : string; NodeID : string; Method : string; Args : list string;
    StoreArgs : StoreArgs.t }.
End Request.

Module Response.
(** Modelled from the spec: the declaration of [Response], missing from the
    engine file; "{transactionID, senderNodeID, payload}", the payload being
    the success marker [Data] or the list of contacts [FindNodeData], as the
    literals at lines 230, 237, 250 and 275 set them. *)
Record t : Type :=
  { ID : string; NodeID : string; Data : string; FindNodeData : list Node }.
End Response.

Module Error.
(** Modelled from the spec: the declaration of [Error], missing from the
    engine file; "{transactionID, senderNodeID, exceptionDescription,
    originalArgs}", with the fields of the literal at lines 206-211. *)
Record t : Type :=
  { ID : string; NodeID : string; ExceptionType : string; Response : list string }.
End Error.

(** Modelled from the spec: the interface [Message], missing from the engine
    file; the three message kinds, which [send] tells apart by type. *)
Inductive Message : Type :=
| MsgRequest (r : Request.t)
| MsgResponse (r : Response.t)
| MsgError (e : Error.t).

(** A value of type [interface{}] as the bencode decoder produces it. *)
Inductive bvalue : Type :=
| BInt (n : Z)
| BString (s : string)
| BList (l : list bvalue)
| BDict (m : gmap string bvalue).

(** [*net.UDPAddr]: the raw address bytes and the port. *)
Record UDPAddr : Type := { IP : string; Port : Z }.

(** [packet] (lines 31-34). *)
Record packet : Type := { data : string; raddr : UDPAddr }.

(** [Config] (lines 37-44). *)
Record Config : Type :=
  { Address : string; SeedNodes : list string; NodeID : string }.

(** [NewStandardConfig] (lines 47-56); the zero value of [NodeID] is the
    empty string. *)
Definition NewStandardConfig : Config :=
  {| Address := ":4444";
     SeedNodes := [ "lbrynet1.lbry.io:4444"; "lbrynet2.lbry.io:4444";
                    "lbrynet3.lbry.io:4444" ];
     NodeID := "" |}.

(** ** What the engine file takes from elsewhere *)

Definition error : Type := string.

(** The constants of the wire protocol.  Their declarations are outside the
    engine file and the spec fixes no value for them, so they are parameters.
    The engine uses the type tags and the method names as the cases of one
    [switch] each, which the Go compiler accepts only for distinct
    constants. *)
Class Protocol : Type :=
  { headerTypeField : string;
    headerMessageIDField : string;
    headerNodeIDField : string;
    headerPayloadField : string;
    headerArgsField : string;
    requestType : Z;
    responseType : Z;
    errorType : Z;
    pingMethod : string;
    storeMethod : string;
    findNodeMethod : string;
    findValueMethod : string;
    pingSuccessResponse : string;
    storeSuccessResponse : string;
    types_distinct : NoDup [requestType; responseType; errorType];
    methods_distinct : NoDup [pingMethod; storeMethod; findNodeMethod; findValueMethod] }.

(** The bencode codec ([bencode.DecodeBytes] at the three target types the
    engine decodes into, [bencode.EncodeBytes]): an external collaborator. *)
Class Codec : Type :=
  { DecodeBytesMap : string -> error + gmap string bvalue;
    DecodeBytesRequest : string -> error + Request.t;
    DecodeBytesResponse : string -> error + Response.t;
    EncodeBytes : Message -> error + string }.

(** The Go libraries the engine calls: [net.SplitHostPort], [cast.ToIntE],
    [cast.ToString], [net.IP.String], and [bitmap]'s constructor from a hex
    string, which returns no error and so can only panic on a bad one. *)
Class Platform : Type :=
  { SplitHostPort : string -> error + (string * string);
    ToIntE : string -> error + Z;
    ToString : bvalue -> string;
    IPString : string -> string;
    newBitmapFromHex : string -> Go.result bitmap }.

(** ** The node and the effects of its handlers *)

(** Modelled from the spec: the interface [UDPConn], missing from the engine
    file; the spec's transport boundary "send(bytes, destinationAddress)", as
    far as the handlers use it: the write deadline last set and the datagrams
    handed to [WriteToUDP], oldest first. *)
Record UDPConn : Type :=
  { writeDeadline : option Z; written : list (string * UDPAddr) }.

(** [DHT] (lines 59-66).  [conn] is [nil] until [init] has bound the socket.
    The channel [packets] only carries datagrams from the reader to
    [runHandler] and is not part of the state the handlers work on. *)
Record DHT : Type :=
  { conf : Config;
    conn : option UDPConn;
    node : Node;
    routingTable : RoutingTable;
    store : peerStore }.

(** The levels of the logger. *)
Inductive Level : Type := ErrorLevel | WarnLevel | InfoLevel | DebugLevel.

(** What a handler prints: a line of the logger, kept as its level and the
    first line of its format string, or a [spew.Dump]. *)
Inductive Event : Type :=
| Logged (lvl : Level) (format : string)
| Dumped.

(** Everything a handler can read or change: the node, the clock behind
    [time.Now], and what has been logged so far (oldest first). *)
Record World : Type := { dht : DHT; now : Z; journal : list Event }.

Inductive outcome (A : Type) : Type :=
| Returns (a : A) (w : World)
| Panics (reason : string).
Arguments Returns {A} a w.
Arguments Panics {A} reason.

Definition M (A : Type) : Type := World -> outcome A.

Global Instance M_ret : MRet M := fun A a w => Returns a w.

Global Instance M_bind : MBind M := fun A B f m w =>
  match m w with
  | Returns a w' => f a w'
  | Panics reason => Panics reason
  end.

Definition panic {A : Type} (reason : string) : M A := fun _ => Panics reason.

Definition lift {A : Type} (r : Go.result A) : M A :=
  match r with
  | Go.Ok a => mret a
  | Go.Panic reason => panic reason
  end.

Definition getDHT : M DHT := fun w => Returns (dht w) w.

Definition timeNow : M Z := fun w => Returns (now w) w.

Definition putDHT (d : DHT) : M unit := fun w =>
  Returns tt {| dht := d; now := now w; journal := journal w |}.

Definition logf (lvl : Level) (format : string) : M unit := fun w =>
  Returns tt {| dht := dht w; now := now w; journal := (journal w ++ [Logged lvl format])%list |}.

(** [spew.Dump]. *)
Definition spewDump : M unit := fun w =>
  Returns tt {| dht := dht w; now := now w; journal := (journal w ++ [Dumped])%list |}.

Definition setConn (c : UDPConn) (d : DHT) : DHT :=
  {| conf := conf d; conn := Some c; node := node d;
     routingTable := routingTable d; store := store d |}.

Definition setRoutingTable (rt : RoutingTable) (d : DHT) : DHT :=
  {| conf := conf d; conn := conn d; node := node d;
     routingTable := rt; store := store d |}.

Definition setStore (s : peerStore) (d : DHT) : DHT :=
  {| conf := conf d; conn := conn d; node := node d;
     routingTable := routingTable d; store := s |}.

(** A method call on [dht.conn]: a nil-dereference panic while it is [nil]. *)
Definition withConn (f : UDPConn -> UDPConn) : M unit :=
  d ← getDHT;
  match conn d with
  | None => panic "invalid memory address or nil pointer dereference"
  | Some c => putDHT (setConn (f c) d)
  end.

Definition SetWriteDeadline (t : Z) : M unit :=
  withConn (fun c => {| writeDeadline := Some t; written := written c |}).

(** [WriteToUDP]: the datagram is handed to the socket. *)
Definition WriteToUDP (b : string) (addr : UDPAddr) : M unit :=
  withConn (fun c => {| writeDeadline := writeDeadline c;
                         written := (written c ++ [(b, addr)])%list |}).

(** [dht.routingTable.Update(node)]. *)
Definition routingTableUpdate (n : Node) : M unit :=
  d ← getDHT; putDHT (setRoutingTable (Update (routingTable d) n) d).

(** [dht.store.Insert(key, value)]. *)
Definition storeInsert (key publisher : string) : M unit :=
  d ← getDHT; t ← timeNow; putDHT (setStore (Insert (store d) t key publisher) d).

(** Type assertions on a decoded [interface{}]: [v.(int64)] and
    [v.(string)] panic when the dynamic type is another one, and on the nil
    interface a map yields for a missing key. *)
Definition assertInt64 (v : option bvalue) : Go.result Z :=
  match v with
  | Some (BInt n) => Go.Ok n
  | _ => Go.Panic "interface conversion: interface {} is not int64"
  end.

Definition assertString (v : option bvalue) : Go.result string :=
  match v with
  | Some (BString s) => Go.Ok s
  | _ => Go.Panic "interface conversion: interface {} is not string"
  end.

(** ** The engine *)

Section Engine.
Context `{Protocol} `{Codec} `{Platform}.

(** [argsToString] (lines 353-362).  The slice [[:8]] is taken only of the
    hex form of a 48-byte argument, 96 characters long, and is in range. *)
Definition argsToString (args : list string) : string :=
  let argsCopy :=
    map (fun v => if Go.len v =? nodeIDLength
                  then String.substring 0 8 (Go.hexEncodeToString v)
                  else v) args in
  Go.join argsCopy ", ".

(** [getArgs] (lines 342-351).  [reflect.TypeOf] of a nil interface is nil,
    and calling [Kind] on it is a nil dereference. *)
Definition getArgs (argsInt : option bvalue) : Go.result (list string) :=
  match argsInt with
  | None => Go.Panic "invalid memory address or nil pointer dereference"
  | Some (BList l) => Go.Ok (map ToString l)
  | Some _ => Go.Ok []
  end.

(** [send] (lines 322-340).  The arguments of [log.Debugf] are evaluated
    before the call, whatever the log level: a slice that is out of range
    panics there.  [argsToString] and [spew.Sdump] always return and leave
    only the log line. *)
Definition send (addr : UDPAddr) (data : Message) : M (option error) :=
  d ← getDHT;
  match data with
  | MsgRequest req =>
      _ ← lift (Go.sliceTo 8 (Hex (id (node d))));
      _ ← lift (Go.sliceTo 8 (Go.hexEncodeToString (Request.ID req)));
      logf DebugLevel "[%s] query %s: sending request: %s(%s)"
  | MsgResponse res =>
      _ ← lift (Go.sliceTo 8 (Hex (id (node d))));
      _ ← lift (Go.sliceTo 8 (Go.hexEncodeToString (Response.ID res)));
      logf DebugLevel "[%s] query %s: sending response: %s"
  | MsgError _ =>
      logf DebugLevel "[%s] %s"
  end;;
  match EncodeBytes data with
  | inl err => mret (Some err)
  | inr encoded =>
      t ← timeNow;
      SetWriteDeadline (t + Go.Second * 15);;
      WriteToUDP encoded addr;;
      mret None
  end.

(** The contact a handler builds for the peer it heard from (lines 287, 307
    and 316). *)
Definition senderNode (nodeID : string) (addr : UDPAddr) : Node :=
  {| id := newBitmapFromString nodeID; ip := IPString (IP addr); port := Port addr |}.

(** [handleRequest] (lines 222-290).  The [switch] yields [true] when control
    leaves it by falling out of a case and [false] when the case returns;
    the named result [success] is [false] on every early return.  [addr] is
    the non-nil address [listen] passes on. *)
Definition handleRequest (addr : UDPAddr) (request : Request.t) : M bool :=
  d ← getDHT;
  if String.eqb (Request.NodeID request) (RawString (id (node d))) then
    logf WarnLevel "ignoring self-request";;
    mret false
  else
    fellThrough ←
      (if String.eqb (Request.Method request) pingMethod then
         _ ← send addr (MsgResponse
                {| Response.ID := Request.ID request;
                   Response.NodeID := RawString (id (node d));
                   Response.Data := pingSuccessResponse;
                   Response.FindNodeData := [] |});
         mret true
       else if String.eqb (Request.Method request) storeMethod then
         if String.eqb (StoreArgs.BlobHash (Request.StoreArgs request)) "" then
           logf ErrorLevel "blobhash is empty";;
           mret false
         else
           storeInsert (StoreArgs.BlobHash (Request.StoreArgs request))
                       (StoreArgs.NodeID (Request.StoreArgs request));;
           _ ← send addr (MsgResponse
                  {| Response.ID := Request.ID request;
                     Response.NodeID := RawString (id (node d));
                     Response.Data := storeSuccessResponse;
                     Response.FindNodeData := [] |});
           mret true
       else if String.eqb (Request.Method request) findNodeMethod then
         logf InfoLevel "findnode";;
         match Request.Args request with
         | [] => logf ErrorLevel "nothing to find";; mret false
         | arg0 :: _ =>
             if negb (Go.len arg0 =? nodeIDLength) then
               logf ErrorLevel "invalid node id";;
               mret false
             else
               let nodeID := newBitmapFromString arg0 in
               d ← getDHT;
               let closestNodes := FindClosest (routingTable d) nodeID bucketSize in
               let response :=
                 {| Response.ID := Request.ID request;
                    Response.NodeID := RawString (id (node d));
                    Response.Data := "";
                    Response.FindNodeData := closestNodes |} in
               _ ← send addr (MsgResponse response);
               mret true
         end
       else if String.eqb (Request.Method request) findValueMethod then
         logf InfoLevel "findvalue";;
         match Request.Args request with
         | [] => logf ErrorLevel "nothing to find";; mret false
         | arg0 :: _ =>
             if negb (Go.len arg0 =? nodeIDLength) then
               logf ErrorLevel "invalid node id";;
               mret false
             else
               d ← getDHT;
               let nodeIDs := Get (store d) arg0 in
               (if (0 <? length nodeIDs)%nat then mret tt else mret tt);;
               let nodeID := newBitmapFromString arg0 in
               d ← getDHT;
               let closestNodes := FindClosest (routingTable d) nodeID bucketSize in
               let response :=
                 {| Response.ID := Request.ID request;
                    Response.NodeID := RawString (id (node d));
                    Response.Data := "";
                    Response.FindNodeData := closestNodes |} in
               _ ← send addr (MsgResponse response);
               mret true
         end
       else
         logf ErrorLevel "invalid request method";;
         mret false);
    if fellThrough : bool then
      routingTableUpdate (senderNode (Request.NodeID request) addr);;
      mret true
    else mret false.

(** [handleResponse] (lines 293-311). *)
Definition handleResponse (addr : UDPAddr) (response : Response.t) : M bool :=
  spewDump;;
  routingTableUpdate (senderNode (Response.NodeID response) addr);;
  mret true.

(** [handleError] (lines 314-319). *)
Definition handleError (addr : UDPAddr) (e : Error.t) : M bool :=
  spewDump;;
  routingTableUpdate (senderNode (Error.NodeID e) addr);;
  mret true.

(** [handle] (lines 169-219). *)
Definition handle (pkt : packet) : M unit :=
  match DecodeBytesMap (data pkt) with
  | inl err => logf ErrorLevel "error decoding data: %s"
  | inr decoded =>
      match decoded !! headerTypeField with
      | None => logf ErrorLevel "decoded data has no message type: %s"
      | Some msgType =>
          tag ← lift (assertInt64 (Some msgType));
          if tag =? requestType then
            match DecodeBytesRequest (data pkt) with
            | inl err => logf ErrorLevel "%v"
            | inr request =>
                d ← getDHT;
                _ ← lift (Go.sliceTo 8 (Hex (id (node d))));
                _ ← lift (Go.sliceTo 8 (Go.hexEncodeToString (Request.ID request)));
                _ ← lift (Go.sliceTo 8 (Go.hexEncodeToString (Request.NodeID request)));
                logf DebugLevel "[%s] query %s: received request from %s: %s(%s)";;
                _ ← handleRequest (raddr pkt) request;
                mret tt
            end
          else if tag =? responseType then
            match DecodeBytesResponse (data pkt) with
            | inl err => mret tt
            | inr response =>
                d ← getDHT;
                _ ← lift (Go.sliceTo 8 (Hex (id (node d))));
                _ ← lift (Go.sliceTo 8 (Go.hexEncodeToString (Response.ID response)));
                _ ← lift (Go.sliceTo 8 (Go.hexEncodeToString (Response.NodeID response)));
                logf DebugLevel "[%s] query %s: received response from %s: %s";;
                _ ← handleResponse (raddr pkt) response;
                mret tt
            end
          else if tag =? errorType then
            eID ← lift (assertString (decoded !! headerMessageIDField));
            eNodeID ← lift (assertString (decoded !! headerNodeIDField));
            eType ← lift (assertString (decoded !! headerPayloadField));
            eArgs ← lift (getArgs (decoded !! headerArgsField));
            let e := {| Error.ID := eID; Error.NodeID := eNodeID;
                        Error.ExceptionType := eType; Error.Response := eArgs |} in
            d ← getDHT;
            _ ← lift (Go.sliceTo 8 (Hex (id (node d))));
            _ ← lift (Go.sliceTo 8 (Go.hexEncodeToString (Error.ID e)));
            _ ← lift (Go.sliceTo 8 (Go.hexEncodeToString (Error.NodeID e)));
            logf DebugLevel "[%s] query %s: received error from %s: %s";;
            _ ← handleError (raddr pkt) e;
            mret tt
          else
            logf ErrorLevel "Invalid message type: %s"
      end
  end.

(** [New] (lines 69-98).  [random] is the identifier [newRandomBitmap]
    draws; [nil] is [None]. *)
Definition New (random : bitmap) (config : option Config) : Go.result DHT :=
  let config := match config with None => NewStandardConfig | Some c => c end in
  match (if String.eqb (NodeID config) "" then Go.Ok random
         else newBitmapFromHex (NodeID config)) with
  | Go.Panic reason => Go.Panic reason
  | Go.Ok nodeID =>
      match SplitHostPort (Address config) with
      | inl err => Go.Panic err
      | inr (ip, port) =>
          match ToIntE port with
          | inl err => Go.Panic err
          | inr portInt =>
              let node := {| id := nodeID; ip := ip; port := portInt |} in
              Go.Ok {| conf := config;
                       conn := None;
                       node := node;
                       routingTable := newRoutingTable node;
                       store := newPeerStore |}
          end
      end
  end.

End Engine.

(** ** What the properties observe *)

(** The datagrams the node has sent so far. *)
Definition outbox (d : DHT) : list (string * UDPAddr) :=
  match conn d with
  | Some c => written c
  | None => []
  end.

(** A node as [Run] leaves it for the handlers: the socket is bound, the
    local identifier has its 48 bytes, and the routing table is the one [New]
    built around the local node. *)
Definition Running (d : DHT) : Prop :=
  is_Some (conn d) /\ wellFormedID (id (node d)) /\ rtNode (routingTable d) = node d.

(** A request as a peer that follows the protocol sends it: the sender's
    identifier has its 48 bytes, and the transaction id the four bytes whose
    hex form the debug lines cut at 8 characters. *)
Definition wellFormedRequest (request : Request.t) : Prop :=
  4 <= Go.len (Request.ID request) /\ wellFormedID (Request.NodeID request).

(** The transactions awaiting a response.  [DHT] has no field for them and
    the engine never records one (the calls into a transaction manager are
    commented out at lines 141-144 and 296-305): there are none. *)
Definition pendingTransactions (d : DHT) : list string := [].

Definition correlated (d : DHT) (response : Response.t) : Prop :=
  Response.ID response ∈ pendingTransactions d.

(** "Closer" in the spec's sense: a smaller XOR distance to the target. *)
Definition closerTo (target : bitmap) (a b : Node) : Prop :=
  (distance target (id a) <= distance target (id b))%N.

(** The bucket [Update] first looks at for a contact is full of other
    contacts. *)
Definition bucketFull (rt : RoutingTable) (c : Node) : bool :=
  let i := bucketIndex (id (rtNode rt)) (buckets rt) (id c) in
  match buckets rt !! i with
  | None => true
  | Some b =>
      (negb (present c b) && negb (length (contacts b) <? Z.to_nat bucketSize)%nat)%bool
  end.

Section Requests.
Context `{Protocol}.

(** The requests [handleRequest] answers: the cases of its [switch] that
    fall out of it instead of returning. *)
Definition accepted (request : Request.t) : bool :=
  if String.eqb (Request.Method request) pingMethod then true
  else if String.eqb (Request.Method request) storeMethod then
    negb (String.eqb (StoreArgs.BlobHash (Request.StoreArgs request)) "")
  else if (String.eqb (Request.Method request) findNodeMethod
           || String.eqb (Request.Method request) findValueMethod)%bool then
    match Request.Args request with
    | [] => false
    | arg0 :: _ => Go.len arg0 =? nodeIDLength
    end
  else false.

(** The reply to [ping], to [store], and the list of closest contacts. *)
Definition pingReply (d : DHT) (request : Request.t) : Message :=
  MsgResponse {| Response.ID := Request.ID request;
                 Response.NodeID := RawString (id (node d));
                 Response.Data := pingSuccessResponse;
                 Response.FindNodeData := [] |}.

Definition storeReply (d : DHT) (request : Request.t) : Message :=
  MsgResponse {| Response.ID := Request.ID request;
                 Response.NodeID := RawString (id (node d));
                 Response.Data := storeSuccessResponse;
                 Response.FindNodeData := [] |}.

Definition closestReply (d : DHT) (request : Request.t) (target : string) : Message :=
  MsgResponse {| Response.ID := Request.ID request;
                 Response.NodeID := RawString (id (node d));
                 Response.Data := "";
                 Response.FindNodeData :=
                   FindClosest (routingTable d) (newBitmapFromString target) bucketSize |}.

(** The reply [handleRequest] sends to an accepted request, and the record
    store it leaves. *)
Definition replyTo (d : DHT) (request : Request.t) : Message :=
  if String.eqb (Request.Method request) pingMethod then pingReply d request
  else if String.eqb (Request.Method request) storeMethod then storeReply d request
  else closestReply d request (List.nth 0 (Request.Args request) "").

Definition storeAfter (d : DHT) (t : Z) (request : Request.t) : peerStore :=
  if (negb (String.eqb (Request.Method request) pingMethod)
      && String.eqb (Request.Method request) storeMethod)%bool
  then Insert (store d) t (StoreArgs.BlobHash (Request.StoreArgs request))
                          (StoreArgs.NodeID (Request.StoreArgs request))
  else store d.

End Requests.

(** ** Start-up and the handling loop *)

(** The calls of the engine into package [net] that open the socket and
    resolve a seed: [net.ListenPacket], which for the network [udp4] yields
    a fresh UDP socket or an error, and [net.ResolveUDPAddr]. *)
Class Network : Type :=
  { ListenPacket : string -> string -> error + unit;
    ResolveUDPAddr : string -> string -> error + UDPAddr }.

Section Startup.
Context `{Protocol} `{Codec} `{Platform} `{Network}.

(** The socket [net.ListenPacket] returns: no deadline set, nothing written. *)
Definition freshConn : UDPConn := {| writeDeadline := None; written := [] |}.

(** [init] (lines 101-110). *)
Definition init : M unit :=
  d ← getDHT;
  logf InfoLevel "Initializing DHT on ";;
  logf InfoLevel "Node ID is %s";;
  match ListenPacket network (Address (conf d)) with
  | inl err => panic err
  | inr _ => putDHT (setConn freshConn d)
  end.

(** The loop of [join] (lines 132-145): a seed that does not resolve is
    skipped, and the address of one that does is dropped ([_ = raddr]); the
    lookup that would use it is commented out. *)
Fixpoint joinSeeds (seeds : list string) : M unit :=
  match seeds with
  | [] => mret tt
  | addr :: rest =>
      match ResolveUDPAddr network addr with
      | inl err => joinSeeds rest
      | inr raddr => joinSeeds rest
      end
  end.

(** [join] (lines 131-146). *)
Definition join : M unit :=
  d ← getDHT; joinSeeds (SeedNodes (conf d)).

(** [runHandler] (lines 148-157) over the packets the channel delivers, in
    the order it delivers them: the loop itself never ends, and this is its
    course over a finite run of packets. *)
Fixpoint runHandler (pkts : list packet) : M unit :=
  match pkts with
  | [] => mret tt
  | pkt :: rest => handle pkt;; runHandler rest
  end.

(** [Run] (lines 160-166).  [listen] only starts the goroutine that reads
    the socket and feeds the channel; [pkts] is what it delivers. *)
Definition Run (pkts : list packet) : M unit :=
  init;;
  join;;
  logf InfoLevel "DHT ready";;
  runHandler pkts.

(** What handling one datagram from [addr] may do to the node: the
    configuration, the local node and the clock stay; a bound socket stays
    bound; at most one datagram is written, behind those written before and
    to [addr]; the routing table stays or takes an [Update] with a contact
    at [addr]; the record store stays or takes an [Insert] under a key that
    is not empty; the log grows. *)
Definition handled (addr : UDPAddr) (w w' : World) : Prop :=
  conf (dht w') = conf (dht w) /\
  node (dht w') = node (dht w) /\
  now w' = now w /\
  (is_Some (conn (dht w)) -> is_Some (conn (dht w'))) /\
  (exists l, outbox (dht w') = (outbox (dht w) ++ l)%list /\
             (length l <= 1)%nat /\
             forall x, x ∈ l -> snd x = addr) /\
  (routingTable (dht w') = routingTable (dht w) \/
   exists nodeID,
     routingTable (dht w') = Update (routingTable (dht w)) (senderNode nodeID addr)) /\
  (store (dht w') = store (dht w) \/
   exists key publisher,
     key <> "" /\ store (dht w') = Insert (store (dht w)) (now w) key publisher) /\
  (exists lines, journal w' = (journal w ++ lines)%list).

(** The id whose hex form the debug line of [send] cuts at 8 characters. *)
Definition messageID (msg : Message) : option string :=
  match msg with
  | MsgRequest req => Some (Request.ID req)
  | MsgResponse res => Some (Response.ID res)
  | MsgError _ => None
  end.

End Startup.

(** ** A concrete protocol, codec and platform

    One instance of the three interfaces, on which the handlers can be run:
    bencode proper for the codec, decimal ports and a [host:port] split at
    the last colon for the platform. *)
Module Sample.

Definition isDigit (c : ascii) : bool :=
  ((48 <=? N_of_ascii c)%N && (N_of_ascii c <=? 57)%N)%bool.

(** The decimal number a string starts with, the number of its digits, and
    what follows it. *)
Fixpoint readDigits (acc : N) (count : nat) (s : string) : N * nat * string :=
  match s with
  | String c rest =>
      if isDigit c then readDigits (acc * 10 + (N_of_ascii c - 48))%N (S count) rest
      else (acc, count, s)
  | EmptyString => (acc, count, s)
  end.

Definition splitAt (n : nat) (s : string) : option (string * string) :=
  if (n <=? String.length s)%nat
  then Some (String.substring 0 n s, String.substring n (String.length s - n) s)
  else None.

Definition parseString (s : string) : option (string * string) :=
  match readDigits 0 0 s with
  | (_, O, _) => None
  | (n, _, String ":" rest) => splitAt (N.to_nat n) rest
  | _ => None
  end.

Definition parseInt (s : string) : option (Z * string) :=
  match s with
  | String "-" rest =>
      match readDigits 0 0 rest with
      | (_, O, _) => None
      | (n, _, String "e" rest') => Some (- Z.of_N n, rest')
      | _ => None
      end
  | _ =>
      match readDigits 0 0 s with
      | (_, O, _) => None
      | (n, _, String "e" rest') => Some (Z.of_N n, rest')
      | _ => None
      end
  end.

(** A bencode value and the rest of the input; [fuel] bounds the nesting
    and the number of elements.  Of two entries with one key the later one
    stays. *)
Fixpoint parseValue (fuel : nat) (s : string) : option (bvalue * string) :=
  match fuel with
  | O => None
  | S fuel' =>
      match s with
      | String "i" rest =>
          '(n, rest') ← parseInt rest; Some (BInt n, rest')
      | String "l" rest =>
          '(l, rest') ← parseList fuel' rest; Some (BList l, rest')
      | String "d" rest =>
          '(m, rest') ← parseDict fuel' rest; Some (BDict m, rest')
      | _ =>
          '(str, rest') ← parseString s; Some (BString str, rest')
      end
  end
with parseList (fuel : nat) (s : string) : option (list bvalue * string) :=
  match fuel with
  | O => None
  | S fuel' =>
      match s with
      | String "e" rest => Some ([], rest)
      | _ =>
          '(v, rest') ← parseValue fuel' s;
          '(l, rest'') ← parseList fuel' rest';
          Some (v :: l, rest'')
      end
  end
with parseDict (fuel : nat) (s : string) : option (gmap string bvalue * string) :=
  match fuel with
  | O => None
  | S fuel' =>
      match s with
      | String "e" rest => Some (∅, rest)
      | _ =>
          '(k, rest') ← parseString s;
          '(v, rest'') ← parseValue fuel' rest';
          '(m, rest''') ← parseDict fuel' rest'';
          Some (match m !! k with Some _ => m | None => <[k := v]> m end, rest''')
      end
  end.

Definition decodeMap (s : string) : error + gmap string bvalue :=
  match parseValue (S (String.length s)) s with
  | Some (BDict m, EmptyString) => inr m
  | _ => inl "bencode: cannot decode into a map"
  end.
(** The fields of a decoded dictionary, by their types. *)
Definition stringField (m : gmap string bvalue) (k : string) : option string :=
  match m !! k with Some (BString str) => Some str | _ => None end.

Definition identifierField (m : gmap string bvalue) (k : string) : option string :=
  str ← stringField m k;
  if Go.len str =? nodeIDLength then Some str else None.

Definition asString (v : bvalue) : option string :=
  match v with BString str => Some str | _ => None end.

Definition asContact (v : bvalue) : option Node :=
  match v with
  | BList [BString i; BString a; BInt p] =>
      if Go.len i =? nodeIDLength then Some {| id := i; ip := a; port := p |} else None
  | _ => None
  end.

Definition listField {A : Type} (f : bvalue -> option A) (m : gmap string bvalue)
  (k : string) : option (list A) :=
  match m !! k with
  | Some (BList l) => mapM f l
  | None => Some []
  | _ => None
  end.

#[export] Instance protocol : Protocol.
Proof.
  refine {| headerTypeField := "0"; headerMessageIDField := "1";
            headerNodeIDField := "2"; headerPayloadField := "3";
            headerArgsField := "4";
            requestType := 0; responseType := 1; errorType := 2;
            pingMethod := "ping"; storeMethod := "store";
            findNodeMethod := "findNode"; findValueMethod := "findValue";
            pingSuccessResponse := "pong"; storeSuccessResponse := "OK" |};
    apply (bool_decide_unpack _); vm_compute; exact I.
Defined.

Definition decodeRequest (s : string) : error + Request.t :=
  match decodeMap s with
  | inl err => inl err
  | inr m =>
      match
        (i ← stringField m headerMessageIDField;
         n ← identifierField m headerNodeIDField;
         q ← stringField m headerPayloadField;
         a ← listField asString m headerArgsField;
         Some {| Request.ID := i; Request.NodeID := n; Request.Method := q;
                 Request.Args := a;
                 Request.StoreArgs :=
                   if String.eqb q storeMethod
                   then {| StoreArgs.BlobHash := List.nth 0 a "";
                           StoreArgs.NodeID := List.nth 1 a "" |}
                   else {| StoreArgs.BlobHash := ""; StoreArgs.NodeID := "" |} |})
      with
      | Some r => inr r
      | None => inl "bencode: cannot decode into a request"
      end
  end.

Definition decodeResponse (s : string) : error + Response.t :=
  match decodeMap s with
  | inl err => inl err
  | inr m =>
      match
        (i ← stringField m headerMessageIDField;
         n ← identifierField m headerNodeIDField;
         match m !! headerPayloadField with
         | Some (BString str) =>
             Some {| Response.ID := i; Response.NodeID := n; Response.Data := str;
                     Response.FindNodeData := [] |}
         | Some (BList l) =>
             c ← mapM asContact l;
             Some {| Response.ID := i; Response.NodeID := n; Response.Data := "";
                     Response.FindNodeData := c |}
         | _ => None
         end)
      with
      | Some r => inr r
      | None => inl "bencode: cannot decode into a response"
      end
  end.

Definition encodeString (str : string) : string :=
  pretty (String.length str) ++ ":" ++ str.

Definition encodeInt (n : Z) : string := "i" ++ pretty n ++ "e".

Definition encodeList (l : list string) : string := "l" ++ String.concat "" l ++ "e".

Definition encodeContact (c : Node) : string :=
  encodeList [encodeString (id c); encodeString (ip c); encodeInt (port c)].

Definition encodeMessage (msg : Message) : error + string :=
  let field k v := encodeString k ++ v in
  inr ("d" ++
    match msg with
    | MsgRequest r =>
        field headerTypeField (encodeInt requestType) ++
        field headerMessageIDField (encodeString (Request.ID r)) ++
        field headerNodeIDField (encodeString (Request.NodeID r)) ++
        field headerPayloadField (encodeString (Request.Method r)) ++
        field headerArgsField (encodeList (map encodeString (Request.Args r)))
    | MsgResponse r =>
        field headerTypeField (encodeInt responseType) ++
        field headerMessageIDField (encodeString (Response.ID r)) ++
        field headerNodeIDField (encodeString (Response.NodeID r)) ++
        field headerPayloadField
          (match Response.FindNodeData r with
           | [] => encodeString (Response.Data r)
           | l => encodeList (map encodeContact l)
           end)
    | MsgError e =>
        field headerTypeField (encodeInt errorType) ++
        field headerMessageIDField (encodeString (Error.ID e)) ++
        field headerNodeIDField (encodeString (Error.NodeID e)) ++
        field headerPayloadField (encodeString (Error.ExceptionType e)) ++
        field headerArgsField (encodeList (map encodeString (Error.Response e)))
    end ++ "e").

#[export] Instance codec : Codec :=
  {| DecodeBytesMap := decodeMap;
     DecodeBytesRequest := decodeRequest;
     DecodeBytesResponse := decodeResponse;
     EncodeBytes := encodeMessage |}.

Fixpoint splitLastColon (s : string) : option (string * string) :=
  match s with
  | EmptyString => None
  | String c rest =>
      match splitLastColon rest with
      | Some (host, p) => Some (String c host, p)
      | None => if Ascii.eqb c ":" then Some ("", rest) else None
      end
  end.

Definition parseDecimal (s : string) : error + Z :=
  match s with
  | String "-" rest =>
      match readDigits 0 0 rest with
      | (n, S _, EmptyString) => inr (- Z.of_N n)
      | _ => inl "unable to cast to int"
      end
  | _ =>
      match readDigits 0 0 s with
      | (n, S _, EmptyString) => inr (Z.of_N n)
      | _ => inl "unable to cast to int"
      end
  end.

Definition hexValue (c : ascii) : option N :=
  let n := N_of_ascii c in
  if isDigit c then Some (n - 48)%N
  else if ((97 <=? n)%N && (n <=? 102)%N)%bool then Some (n - 87)%N
  else if ((65 <=? n)%N && (n <=? 70)%N)%bool then Some (n - 55)%N
  else None.

Fixpoint hexDecode (s : string) : option string :=
  match s with
  | EmptyString => Some EmptyString
  | String hi (String lo rest) =>
      h ← hexValue hi; l ← hexValue lo; r ← hexDecode rest;
      Some (String (ascii_of_N (h * 16 + l)) r)
  | _ => None
  end.

Definition dotted (raw : string) : string :=
  String.concat "." (map (fun c => pretty (N_of_ascii c)) (list_ascii_of_string raw)).

#[export] Instance platform : Platform :=
  {| SplitHostPort := fun s =>
       match splitLastColon s with
       | Some hp => inr hp
       | None => inl "missing port in address"
       end;
     ToIntE := parseDecimal;
     ToString := fun v =>
       match v with BString str => str | BInt n => pretty n | _ => "" end;
     IPString := dotted;
     newBitmapFromHex := fun s =>
       match hexDecode s with
       | Some raw =>
           if Go.len raw =? nodeIDLength then Go.Ok raw
           else Go.Panic "invalid bitmap length"
       | None => Go.Panic "invalid hex string"
       end |}.

(** A running node with an empty routing table and an empty store, and
    peers to talk to it. *)
Definition peerID (c : ascii) : bitmap :=
  string_of_list_ascii (repeat c (Z.to_nat nodeIDLength)).

Definition localNode : Node := {| id := peerID "L"; ip := ""; port := 4444 |}.

Definition node0 : DHT :=
  {| conf := NewStandardConfig;
     conn := Some {| writeDeadline := None; written := [] |};
     node := localNode;
     routingTable := newRoutingTable localNode;
     store := newPeerStore |}.

Definition world0 : World := {| dht := node0; now := 1000; journal := [] |}.

Definition peerAddr : UDPAddr :=
  {| IP := string_of_list_ascii [ascii_of_N 10; ascii_of_N 0; ascii_of_N 0; ascii_of_N 7];
     Port := 4444 |}.

Definition request (sender : bitmap) (method : string) (args : list string)
  (blobHash publisher : string) : Request.t :=
  {| Request.ID := "tx01"; Request.NodeID := sender; Request.Method := method;
     Request.Args := args;
     Request.StoreArgs := {| StoreArgs.BlobHash := blobHash; StoreArgs.NodeID := publisher |} |}.

Definition worldOf {A : Type} (o : outcome A) : option World :=
  match o with Returns _ w => Some w | Panics _ => None end.

(** The requests of a list handled one after the other, as [runHandler]
    hands them over. *)
Fixpoint deliver (requests : list Request.t) (w : World) : World :=
  match requests with
  | [] => w
  | r :: rest =>
      match handleRequest peerAddr r w with
      | Returns _ w' => deliver rest w'
      | Panics _ => w
      end
  end.

(** Peers whose identifiers differ from the local one in the first bit. *)
Definition farID (i : N) : bitmap :=
  String (ascii_of_N (128 + i))
         (string_of_list_ascii (repeat "0"%char (Z.to_nat nodeIDLength - 1))).

Definition pingFrom (i : N) : Request.t := request (farID i) pingMethod [] "" "".

(** The node after twenty such peers have pinged it. *)
Definition crowded : World :=
  deliver (map (fun i => pingFrom (N.of_nat i)) (seq 0 20)) world0.

(** The datagram of a ping from B, transaction [tx01]. *)
Definition pingDatagram : string :=
  "d1:0i0e1:14:tx011:248:" ++ peerID "B" ++ "1:34:pinge".

(** The node after publisher P has stored key K on it. *)
Definition storeK : Request.t :=
  request (peerID "P") storeMethod [] (peerID "K") (peerID "P").

Definition stored : World := deliver [storeK] world0.

Definition findValueK : Request.t :=
  request (peerID "C") findValueMethod [peerID "K"] "" "".

Definition responseFromB : Response.t :=
  {| Response.ID := "tx01"; Response.NodeID := peerID "B";
     Response.Data := "pong"; Response.FindNodeData := [] |}.

(** A network on which a socket binds to every address that has a port, and
    on which only [localhost] resolves. *)
#[export] Instance net : Network :=
  {| ListenPacket := fun _ address =>
       match splitLastColon address with
       | Some _ => inr tt
       | None => inl "listen: missing port in address"
       end;
     ResolveUDPAddr := fun _ address =>
       match splitLastColon address with
       | Some ("localhost", p) =>
           match parseDecimal p with
           | inr n => inr {| IP := string_of_list_ascii
                                    [ascii_of_N 127; ascii_of_N 0; ascii_of_N 0; ascii_of_N 1];
                             Port := n |}
           | inl err => inl err
           end
       | _ => inl "no such host"
       end |}.

(** The node as [New(nil)] returns it with the id L, before [init]. *)
Definition unbound : World :=
  {| dht := {| conf := NewStandardConfig; conn := None; node := localNode;
               routingTable := newRoutingTable localNode; store := newPeerStore |};
     now := 1000; journal := [] |}.

(** A datagram whose message type is a string. *)
Definition badDatagram : string := "d1:01:xe".

(** A ping from B whose transaction id has 2 bytes. *)
Definition shortIDDatagram : string :=
  "d1:0i0e1:12:tx1:248:" ++ peerID "B" ++ "1:34:pinge".

(** A response from B, and an error message from B with no arguments. *)
Definition responseDatagram : string :=
  "d1:0i1e1:14:tx011:248:" ++ peerID "B" ++ "1:34:ponge".

Definition errorDatagram : string :=
  "d1:0i2e1:14:tx011:248:" ++ peerID "B" ++ "1:39:exception1:4lee".

(** An error message with no entry but its type. *)
Definition bareErrorDatagram : string := "d1:0i2ee".

Definition packetFrom (bytes : string) : packet := {| data := bytes; raddr := peerAddr |}.

(** What the sample codec decodes a datagram to. *)
Definition decodedOf (bytes : string) : gmap string bvalue :=
  match decodeMap bytes with inr m => m | inl _ => ∅ end.

Definition requestOf (bytes : string) : Request.t :=
  match decodeRequest bytes with inr r => r | inl _ => request "" "" [] "" "" end.

Definition responseOf (bytes : string) : Response.t :=
  match decodeResponse bytes with inr r => r | inl _ => responseFromB end.

(** The world a computation leaves, the one it started in when it panics. *)
Definition after {A : Type} (m : M A) (w : World) : World :=
  default w (worldOf (m w)).

(** The reply to a ping with transaction [tx01]. *)
Definition pong : Message :=
  MsgResponse {| Response.ID := "tx01"; Response.NodeID := peerID "L";
                 Response.Data := "pong"; Response.FindNodeData := [] |}.

(** A configuration with an address and an id of its own. *)
Definition configured : Config :=
  {| Address := "localhost:5555"; SeedNodes := ["localhost:4444"; "nowhere:4444"; "noport"];
     NodeID := Go.hexEncodeToString (peerID "N") |}.

End Sample.

(** ** The command [ytsync]

    The command of package [cmd] that publishes a YouTube channel, from its
    arguments and flags to the call of [Sync.FullCycle]. *)
Module Ytsync.

(** [defaultMaxTries]. *)
Definition defaultMaxTries : Z := 3.

(** The package variables the flags of the command are bound to. *)
Record Flags : Type :=
  { stopOnError : bool; maxTries : Z; takeOverExistingChannel : bool; refill : Z }.

(** The struct [sync.Sync], with the fields of the literal [ytsync] builds. *)
Record Sync : Type :=
  { YoutubeAPIKey : string;
    YoutubeChannelID : string;
    LbryChannelName : string;
    StopOnError : bool;
    MaxTries : Z;
    ConcurrentVideos : Z;
    TakeOverExistingChannel : bool;
    Refill : Z }.

(** What a run of the command does, in order: a line of [log.Errorln], the
    call of [FullCycle], the trace of the error it returned. *)
Inductive Effect : Type :=
| Errorln (msg : string)
| RanFullCycle (s : Sync)
| ErrorTrace (err : error).

(** The index expression [a[i]]: a run-time panic when [i] is out of range. *)
Definition index {A : Type} (l : list A) (i : nat) : Go.result A :=
  match l !! i with
  | Some x => Go.Ok x
  | None => Go.Panic "index out of range"
  end.

Section Command.
(** [Sync.FullCycle], of package [ytsync]: [None] is the nil error. *)
Variable FullCycle : Sync -> option error.

(** [ytsync]; [string(lbryChannelName[0])] is [@] exactly when the first
    byte of the name is. *)
Definition ytsync (flags : Flags) (args : list string) : Go.result (list Effect) :=
  match index args 0 with
  | Go.Panic reason => Go.Panic reason
  | Go.Ok ytAPIKey =>
  match index args 1 with
  | Go.Panic reason => Go.Panic reason
  | Go.Ok lbryChannelName =>
  match index (list_ascii_of_string lbryChannelName) 0 with
  | Go.Panic reason => Go.Panic reason
  | Go.Ok first =>
      if negb (Ascii.eqb first "@") then
        Go.Ok [Errorln "LBRY channel name must start with an @"]
      else
        let channelID := if (2 <? length args)%nat then List.nth 2 args "" else "" in
        if (stopOnError flags && negb (maxTries flags =? defaultMaxTries))%bool then
          Go.Ok [Errorln "--stop-on-error and --max-tries are mutually exclusive"]
        else if maxTries flags <? 1 then
          Go.Ok [Errorln "setting --max-tries less than 1 doesn't make sense"]
        else
          let s := {| YoutubeAPIKey := ytAPIKey;
                      YoutubeChannelID := channelID;
                      LbryChannelName := lbryChannelName;
                      StopOnError := stopOnError flags;
                      MaxTries := maxTries flags;
                      ConcurrentVideos := 1;
                      TakeOverExistingChannel := takeOverExistingChannel flags;
                      Refill := refill flags |} in
          match FullCycle s with
          | Some err => Go.Ok [RanFullCycle s; ErrorTrace err]
          | None => Go.Ok [RanFullCycle s]
          end
  end end end.

End Command.
End Ytsync.

(** Sample arguments: a [FullCycle] that fails for a channel name longer than 8 bytes. *)
Definition sampleFullCycle (s : Ytsync.Sync) : option error :=
  if (8 <? String.length (Ytsync.LbryChannelName s))%nat then Some "channel not found" else None.

Definition defaultFlags : Ytsync.Flags :=
  {| Ytsync.stopOnError := false; Ytsync.maxTries := Ytsync.defaultMaxTries;
     Ytsync.takeOverExistingChannel := false; Ytsync.refill := 0 |}.

(** * Properties *)

(** ** Go primitives *)

Lemma hexEncodeToString_length (s : string) :
  String.length (Go.hexEncodeToString s) = (2 * String.length s)%nat.
Proof.
  induction s as [| c s IH]; simpl; [reflexivity | rewrite IH; lia].
Qed.

Lemma sliceTo_hex (s : string) :
  4 <= Go.len s ->
  Go.sliceTo 8 (Go.hexEncodeToString s)
  = Go.Ok (String.substring 0 8 (Go.hexEncodeToString s)).
Proof.
  intros Hlen. unfold Go.sliceTo, Go.len in *.
  rewrite hexEncodeToString_length.
  destruct (Nat.leb_spec 8 (2 * String.length s)) as [_ | Hlt]; [reflexivity | lia].
Qed.

(** The slice in [argsToString] is in range. *)
Lemma argsToString_slice (v : string) :
  Go.len v = nodeIDLength ->
  Go.sliceTo 8 (Go.hexEncodeToString v)
  = Go.Ok (String.substring 0 8 (Go.hexEncodeToString v)).
Proof.
  intros Hlen. apply sliceTo_hex. rewrite Hlen. unfold nodeIDLength. lia.
Qed.

Lemma sliceTo_Hex (b : bitmap) :
  wellFormedID b ->
  Go.sliceTo 8 (Hex b) = Go.Ok (String.substring 0 8 (Hex b)).
Proof.
  intros Hwf. apply sliceTo_hex. unfold wellFormedID, nodeIDLength in Hwf. lia.
Qed.

(** ** The routing table and the record store *)

Lemma Update_local (rt : RoutingTable) (c : Node) :
  id c = id (rtNode rt) -> Update rt c = rt.
Proof.
  intros Heq. unfold Update, sameID. rewrite Heq, String.eqb_refl. reflexivity.
Qed.

Lemma elem_of_allContacts_insert (bs : list Bucket) (i : nat) (b b' : Bucket) (c : Node) :
  bs !! i = Some b ->
  c ∈ contacts b' ->
  c ∈ concat (map contacts (<[i := b']> bs)).
Proof.
  intros Hb Hc. apply list_elem_of_In, in_concat.
  exists (contacts b'). split; [| apply list_elem_of_In, Hc].
  apply in_map, list_elem_of_In, list_elem_of_lookup.
  exists i. apply list_lookup_insert_eq. eapply lookup_lt_Some, Hb.
Qed.

Lemma insertContact_room (fuel : nat) (local : bitmap) (c : Node) (bs : list Bucket)
  (b : Bucket) :
  bs !! bucketIndex local bs (id c) = Some b ->
  (negb (present c b) && negb (length (contacts b) <? Z.to_nat bucketSize)%nat)%bool = false ->
  c ∈ concat (map contacts (insertContact fuel local c bs)).
Proof.
  intros Hb Hroom.
  assert (Hstep : insertContact fuel local c bs =
                  if present c b
                  then <[bucketIndex local bs (id c) := moveToFront c b]> bs
                  else <[bucketIndex local bs (id c) := pushFront c b]> bs).
  { destruct fuel; simpl; rewrite Hb;
      destruct (present c b); try reflexivity;
      simpl in Hroom; apply negb_false_iff in Hroom; rewrite Hroom; reflexivity. }
  rewrite Hstep.
  destruct (present c b);
    (eapply elem_of_allContacts_insert; [exact Hb | simpl; left]).
Qed.

Lemma Update_records (rt : RoutingTable) (c : Node) :
  id c <> id (rtNode rt) ->
  bucketFull rt c = false ->
  c ∈ allContacts (Update rt c).
Proof.
  intros Hne Hroom. unfold Update, sameID.
  apply String.eqb_neq in Hne. rewrite Hne.
  unfold allContacts, bucketFull in *. cbn [buckets rtNode].
  destruct (buckets rt !! bucketIndex (id (rtNode rt)) (buckets rt) (id c))
    as [b |] eqn:Hb; [| discriminate].
  eapply insertContact_room; eassumption.
Qed.

Lemma newRoutingTable_room (n c : Node) : bucketFull (newRoutingTable n) c = false.
Proof.
  unfold bucketFull, bucketIndex. simpl. rewrite Nat.min_0_r. reflexivity.
Qed.

Lemma insertByDistance_perm (target : bitmap) (c : Node) (l : list Node) :
  insertByDistance target c l ≡ₚ c :: l.
Proof.
  induction l as [| x l IH]; simpl; [reflexivity |].
  destruct (distance target (id c) <=? distance target (id x))%N; [reflexivity |].
  rewrite IH. apply perm_swap.
Qed.

Lemma sortByDistance_perm (target : bitmap) (l : list Node) :
  sortByDistance target l ≡ₚ l.
Proof.
  induction l as [| x l IH]; simpl; [reflexivity |].
  rewrite insertByDistance_perm, IH. reflexivity.
Qed.

Lemma insertByDistance_sorted (target : bitmap) (c : Node) (l : list Node) :
  StronglySorted (closerTo target) l ->
  StronglySorted (closerTo target) (insertByDistance target c l).
Proof.
  induction 1 as [| x l Hsorted IH Hall]; simpl.
  - constructor; constructor.
  - destruct (N.leb_spec (distance target (id c)) (distance target (id x))) as [Hle | Hgt].
    + constructor; [constructor; assumption |].
      constructor; [exact Hle |].
      eapply Forall_impl; [exact Hall |].
      intros y Hy. unfold closerTo in *. lia.
    + constructor; [exact IH |].
      rewrite insertByDistance_perm. constructor; [| exact Hall].
      unfold closerTo. lia.
Qed.

Lemma sortByDistance_sorted (target : bitmap) (l : list Node) :
  StronglySorted (closerTo target) (sortByDistance target l).
Proof.
  induction l as [| x l IH]; simpl; [constructor |].
  apply insertByDistance_sorted, IH.
Qed.

Lemma FindClosest_length (rt : RoutingTable) (target : bitmap) (count : Z) :
  (length (FindClosest rt target count) <= Z.to_nat count)%nat.
Proof. unfold FindClosest. rewrite length_take. lia. Qed.

Lemma FindClosest_known (rt : RoutingTable) (target : bitmap) (count : Z) (c : Node) :
  c ∈ FindClosest rt target count -> c ∈ allContacts rt.
Proof.
  unfold FindClosest. intros Hc.
  rewrite <- (sortByDistance_perm target).
  rewrite <- (take_drop (Z.to_nat count) (sortByDistance target (allContacts rt))).
  apply elem_of_app. left. exact Hc.
Qed.

Lemma FindClosest_sorted (rt : RoutingTable) (target : bitmap) (count : Z) :
  StronglySorted (closerTo target) (FindClosest rt target count).
Proof.
  unfold FindClosest.
  pose proof (sortByDistance_sorted target (allContacts rt)) as Hs.
  rewrite <- (take_drop (Z.to_nat count)) in Hs.
  eapply StronglySorted_app_1_l, Hs.
Qed.

Lemma FindClosest_closest (rt : RoutingTable) (target : bitmap) (count : Z) (c other : Node) :
  c ∈ FindClosest rt target count ->
  other ∈ allContacts rt ->
  other ∉ FindClosest rt target count ->
  closerTo target c other.
Proof.
  unfold FindClosest. intros Hc Hother Hout.
  pose proof (sortByDistance_sorted target (allContacts rt)) as Hs.
  rewrite <- (take_drop (Z.to_nat count)) in Hs.
  rewrite <- (sortByDistance_perm target) in Hother.
  rewrite <- (take_drop (Z.to_nat count) (sortByDistance target (allContacts rt))) in Hother.
  apply elem_of_app in Hother as [Hin | Hin]; [contradiction |].
  eapply StronglySorted_app_1_elem_of; eassumption.
Qed.

Lemma Get_Insert (s : peerStore) (t : Z) (key publisher : string) :
  publisher ∈ Get (Insert s t key publisher) key.
Proof.
  unfold Get, Insert. apply list_elem_of_In. rewrite <- in_rev. apply in_map_iff.
  exists {| value := publisher; storedAt := t |}. split; [reflexivity |].
  destruct (existsb (fun r => String.eqb (value r) publisher)
              (default [] (records s !! key))) eqn:Hex; simpl;
    rewrite lookup_insert_eq; simpl.
  - apply existsb_exists in Hex as (r & Hr & Heq).
    apply in_map_iff. exists r. rewrite Heq. split; [reflexivity | exact Hr].
  - apply in_or_app. right. left. reflexivity.
Qed.

Lemma Get_newPeerStore (key : string) : Get newPeerStore key = [].
Proof. reflexivity. Qed.

Lemma splitLast_length (local : bitmap) (bs : list Bucket) :
  bs <> [] -> length (splitLast local bs) = S (length bs).
Proof.
  intros Hne. unfold splitLast.
  destruct bs as [| b0 bs] using rev_ind; [contradiction |].
  rewrite map_app. change (map Some [b0]) with [Some b0]. rewrite last_last.
  rewrite removelast_last, !length_app. simpl. lia.
Qed.

(** The fuel [Update] gives [insertContact] is never used up: with more
    fuel than buckets are left to create, the result does not depend on
    it. *)
Lemma insertContact_fuel (local : bitmap) (c : Node) (fuel fuel' : nat) (bs : list Bucket) :
  (Z.to_nat numBuckets - length bs < fuel)%nat ->
  (Z.to_nat numBuckets - length bs < fuel')%nat ->
  insertContact fuel local c bs = insertContact fuel' local c bs.
Proof.
  revert fuel' bs.
  induction fuel as [| fuel IH]; intros fuel' bs Hfuel Hfuel'; [lia |].
  destruct fuel' as [| fuel']; [lia |].
  cbn [insertContact].
  destruct (bs !! bucketIndex local bs (id c)) as [b |] eqn:Hb; [| reflexivity].
  destruct (present c b); [reflexivity |].
  destruct (length (contacts b) <? Z.to_nat bucketSize)%nat; [reflexivity |].
  destruct (Nat.ltb_spec (length bs) (Z.to_nat numBuckets)) as [Hlt | Hge];
    [| rewrite andb_false_r; reflexivity].
  destruct (bucketIndex local bs (id c) =? length bs - 1)%nat; [| reflexivity].
  cbn [andb].
  assert (Hne : bs <> []) by (intros ->; discriminate).
  apply IH; rewrite splitLast_length by exact Hne; lia.
Qed.

Lemma Update_fuel (rt : RoutingTable) (c : Node) (extra : nat) :
  buckets rt <> [] ->
  insertContact (Z.to_nat numBuckets + extra) (id (rtNode rt)) c (buckets rt)
  = insertContact (Z.to_nat numBuckets) (id (rtNode rt)) c (buckets rt).
Proof.
  intros Hne. apply insertContact_fuel;
    destruct (buckets rt); [contradiction | | contradiction |];
    cbn [length]; unfold numBuckets, nodeIDLength; lia.
Qed.

(** ** The handlers *)

Lemma setRoutingTable_same (d : DHT) : setRoutingTable (routingTable d) d = d.
Proof. destruct d; reflexivity. Qed.

Section Handlers.
Context `{Protocol} `{Codec} `{Platform}.

Lemma method_cases :
  String.eqb storeMethod pingMethod = false /\
  String.eqb findNodeMethod pingMethod = false /\
  String.eqb findNodeMethod storeMethod = false /\
  String.eqb findValueMethod pingMethod = false /\
  String.eqb findValueMethod storeMethod = false /\
  String.eqb findValueMethod findNodeMethod = false.
Proof.
  pose proof methods_distinct as Hnd.
  repeat match goal with
         | Hn : NoDup (_ :: _) |- _ => apply NoDup_cons in Hn; destruct Hn
         end.
  repeat split; apply String.eqb_neq; intros Heq; set_solver.
Qed.

(** What [send] does with a response on a running node. *)
Lemma send_response (w : World) (addr : UDPAddr) (res : Response.t) (c : UDPConn) :
  conn (dht w) = Some c ->
  wellFormedID (id (node (dht w))) ->
  4 <= Go.len (Response.ID res) ->
  send addr (MsgResponse res) w =
  let logged := (journal w ++ [Logged DebugLevel "[%s] query %s: sending response: %s"])%list in
  match EncodeBytes (MsgResponse res) with
  | inl err => Returns (Some err) {| dht := dht w; now := now w; journal := logged |}
  | inr encoded =>
      Returns None
        {| dht := setConn {| writeDeadline := Some (now w + Go.Second * 15);
                             written := (written c ++ [(encoded, addr)])%list |} (dht w);
           now := now w; journal := logged |}
  end.
Proof.
  intros Hconn Hid Hlen.
  unfold send, mbind, M_bind, getDHT. simpl.
  rewrite (sliceTo_Hex _ Hid). simpl.
  rewrite (sliceTo_hex _ Hlen). simpl.
  destruct (EncodeBytes (MsgResponse res)) as [err | encoded]; simpl; [reflexivity |].
  unfold SetWriteDeadline, WriteToUDP, withConn, mbind, M_bind, getDHT. simpl.
  rewrite Hconn. simpl. reflexivity.
Qed.

Lemma handleRequest_self (w : World) (addr : UDPAddr) (request : Request.t) :
  Request.NodeID request = RawString (id (node (dht w))) ->
  handleRequest addr request w =
  Returns false {| dht := dht w; now := now w;
                   journal := (journal w ++ [Logged WarnLevel "ignoring self-request"])%list |}.
Proof.
  intros Hself. unfold handleRequest, mbind, M_bind, getDHT. simpl.
  rewrite Hself, String.eqb_refl. reflexivity.
Qed.

Lemma handleRequest_rejected (w : World) (addr : UDPAddr) (request : Request.t) :
  Request.NodeID request <> RawString (id (node (dht w))) ->
  accepted request = false ->
  exists w', handleRequest addr request w = Returns false w' /\ dht w' = dht w.
Proof.
  intros Hother Hrej. unfold handleRequest, mbind, M_bind, getDHT. simpl.
  apply String.eqb_neq in Hother. rewrite Hother.
  unfold accepted in Hrej.
  destruct (String.eqb (Request.Method request) pingMethod); [discriminate |].
  destruct (String.eqb (Request.Method request) storeMethod).
  { apply negb_false_iff in Hrej. rewrite Hrej. simpl. eexists; split; reflexivity. }
  destruct (String.eqb (Request.Method request) findNodeMethod); simpl in *.
  { destruct (Request.Args request) as [| arg0 rest]; simpl.
    - eexists; split; reflexivity.
    - rewrite Hrej. simpl. eexists; split; reflexivity. }
  destruct (String.eqb (Request.Method request) findValueMethod); simpl in *.
  { destruct (Request.Args request) as [| arg0 rest]; simpl.
    - eexists; split; reflexivity.
    - rewrite Hrej. simpl. eexists; split; reflexivity. }
  eexists; split; reflexivity.
Qed.

Lemma handleRequest_unanswered (w : World) (addr : UDPAddr) (request : Request.t) :
  accepted request = false ->
  exists w', handleRequest addr request w = Returns false w' /\ dht w' = dht w.
Proof.
  intros Hrej.
  destruct (String.eqb_spec (Request.NodeID request) (RawString (id (node (dht w)))))
    as [Hself | Hother].
  - rewrite (handleRequest_self w addr request Hself). eexists; split; reflexivity.
  - apply handleRequest_rejected; assumption.
Qed.

Ltac run_send c :=
  rewrite (send_response _ _ _ c) by (first [reflexivity | assumption]);
  cbv zeta;
  match goal with
  | |- context [EncodeBytes ?m] => destruct (EncodeBytes m)
  end; simpl;
  unfold routingTableUpdate, mbind, M_bind, getDHT, putDHT; simpl;
  (eexists; split; [ reflexivity | ]);
  unfold outbox; simpl; repeat split; try reflexivity;
  rewrite ?app_nil_r; reflexivity.

Lemma handleRequest_accepted (w : World) (addr : UDPAddr) (request : Request.t) :
  Running (dht w) ->
  wellFormedRequest request ->
  Request.NodeID request <> RawString (id (node (dht w))) ->
  accepted request = true ->
  exists w',
    handleRequest addr request w = Returns true w' /\
    routingTable (dht w')
    = Update (routingTable (dht w)) (senderNode (Request.NodeID request) addr) /\
    store (dht w') = storeAfter (dht w) (now w) request /\
    outbox (dht w')
    = (outbox (dht w) ++
       match EncodeBytes (replyTo (dht w) request) with
       | inr encoded => [(encoded, addr)]
       | inl _ => []
       end)%list.
Proof.
  intros (Hconn & Hid & Hrt) (Hlen & Hsender) Hother Hacc.
  destruct Hconn as [c Hconn].
  destruct w as [d t j]; simpl in *.
  destruct d as [cf cn nd rt st]; simpl in *. subst cn.
  unfold handleRequest, mbind, M_bind, getDHT. simpl.
  apply String.eqb_neq in Hother. rewrite Hother.
  unfold accepted in Hacc. unfold replyTo, storeAfter.
  destruct (String.eqb (Request.Method request) pingMethod); simpl.
  { unfold pingReply. simpl. run_send c. }
  destruct (String.eqb (Request.Method request) storeMethod); simpl.
  { apply negb_true_iff in Hacc. rewrite Hacc.
    unfold storeInsert, mbind, M_bind, getDHT, timeNow, putDHT. simpl.
    unfold storeReply. simpl. run_send c. }
  destruct (String.eqb (Request.Method request) findNodeMethod); simpl in *.
  { destruct (Request.Args request) as [| arg0 rest]; [discriminate |]. simpl.
    rewrite Hacc. simpl. unfold closestReply. simpl. run_send c. }
  destruct (String.eqb (Request.Method request) findValueMethod); simpl in *.
  { destruct (Request.Args request) as [| arg0 rest]; [discriminate |]. simpl.
    rewrite Hacc. simpl.
    destruct (0 <? length (Get st arg0))%nat; simpl;
      unfold closestReply; simpl; run_send c. }
  discriminate.
Qed.

Lemma ne_local_id (d : DHT) (s : string) :
  rtNode (routingTable d) = node d ->
  s <> RawString (id (node d)) ->
  forall addr, id (senderNode s addr) <> id (rtNode (routingTable d)).
Proof. intros Hrt Hne addr. rewrite Hrt. exact Hne. Qed.

End Handlers.

(** ** The properties the spec states *)

(** C9.  The compiled-in protocol constants have the spec's values: 48-byte
    identifiers (384 bits, which is also the number of buckets), k = 20,
    alpha = 3, and 54 bytes of compact node info (identifier, 4-byte IP,
    2-byte port). *)
Theorem constants_have_spec_values :
  nodeIDLength = 48 /\
  8 * nodeIDLength = 384 /\
  numBuckets = 8 * nodeIDLength /\
  numBuckets = 384 /\
  bucketSize = 20 /\
  alpha = 3 /\
  compactNodeInfoLength = nodeIDLength + 4 + 2 /\
  compactNodeInfoLength = 54.
Proof. repeat split; reflexivity. Qed.

Section Specification.
Context `{Protocol} `{Codec} `{Platform}.

(** C1.  The spec has a [findValue] request for a key with stored values
    answered with those values and not with contacts.  The engine answers
    it like [findNode]: the datagram sent is the list of closest contacts,
    with an empty [Data]; what [Get] returned is not used. *)
Theorem findValue_replies_with_contacts (w : World) (addr : UDPAddr)
  (request : Request.t) (key : string) (rest : list string) (encoded : string) :
  Running (dht w) ->
  wellFormedRequest request ->
  Request.NodeID request <> RawString (id (node (dht w))) ->
  Request.Method request = findValueMethod ->
  Request.Args request = key :: rest ->
  Go.len key = nodeIDLength ->
  Get (store (dht w)) key <> [] ->
  EncodeBytes (closestReply (dht w) request key) = inr encoded ->
  exists w',
    handleRequest addr request w = Returns true w' /\
    outbox (dht w') = (outbox (dht w) ++ [(encoded, addr)])%list.
Proof.
  intros Hrun Hwf Hother Hmethod Hargs Hlen _ Henc.
  destruct method_cases as (_ & _ & _ & Hvp & Hvs & Hvn).
  assert (Hacc : accepted request = true).
  { unfold accepted. rewrite Hmethod, Hvp, Hvs, Hvn, String.eqb_refl, Hargs. simpl.
    apply Z.eqb_eq, Hlen. }
  destruct (handleRequest_accepted w addr request Hrun Hwf Hother Hacc)
    as (w' & Hrun' & _ & _ & Hout).
  exists w'. split; [exact Hrun' |].
  rewrite Hout. unfold replyTo. rewrite Hmethod, Hvp, Hvs, Hargs. simpl.
  rewrite Henc. reflexivity.
Qed.

(** C2, amended.  For a well-formed request from a sender other than the
    local node, [handleRequest] reports whether it accepted the request
    (ping, store with a content key, findNode or findValue with a 48-byte
    first argument); the routing table afterwards is [Update] applied to the
    sender's contact when it did, and is unchanged when it did not. *)
Theorem sender_recorded_when_accepted (w : World) (addr : UDPAddr) (request : Request.t) :
  Running (dht w) ->
  wellFormedRequest request ->
  Request.NodeID request <> RawString (id (node (dht w))) ->
  exists w',
    handleRequest addr request w = Returns (accepted request) w' /\
    routingTable (dht w') =
      if accepted request
      then Update (routingTable (dht w)) (senderNode (Request.NodeID request) addr)
      else routingTable (dht w).
Proof.
  intros Hrun Hwf Hother.
  destruct (accepted request) eqn:Hacc.
  - destruct (handleRequest_accepted w addr request Hrun Hwf Hother Hacc)
      as (w' & Hrun' & Hrt & _).
    exists w'. split; assumption.
  - destruct (handleRequest_rejected w addr request Hother Hacc) as (w' & Hrun' & Hsame).
    exists w'. split; [exact Hrun' | rewrite Hsame; reflexivity].
Qed.

(** C3.  The spec has every decoding failure logged and the packet
    dropped.  A datagram that decodes to a dictionary whose message-type
    entry is not an integer makes [handle] panic instead, at the type
    assertion [msgType.(int64)]. *)
Theorem handle_panics_on_non_integer_type (w : World) (pkt : packet)
  (decoded : gmap string bvalue) (msgType : bvalue) :
  DecodeBytesMap (data pkt) = inr decoded ->
  decoded !! headerTypeField = Some msgType ->
  (forall n, msgType <> BInt n) ->
  exists reason, handle pkt w = Panics reason.
Proof.
  intros Hdec Htype Hnot. unfold handle. rewrite Hdec, Htype.
  destruct msgType as [n | s | l | m]; [destruct (Hnot n); reflexivity | | |];
    eexists; reflexivity.
Qed.

(** What [handle] does log and drop: a datagram that does not decode, one
    without a message type, and one whose type is an integer other than the
    three known.  The node is left as it was. *)
Lemma handle_logs_and_drops (w : World) (pkt : packet) :
  (forall err, DecodeBytesMap (data pkt) = inl err ->
     handle pkt w =
     Returns tt {| dht := dht w; now := now w;
                   journal := (journal w ++ [Logged ErrorLevel "error decoding data: %s"])%list |})
  /\
  (forall decoded, DecodeBytesMap (data pkt) = inr decoded ->
     decoded !! headerTypeField = None ->
     handle pkt w =
     Returns tt {| dht := dht w; now := now w;
                   journal := (journal w ++
                               [Logged ErrorLevel "decoded data has no message type: %s"])%list |})
  /\
  (forall decoded tag, DecodeBytesMap (data pkt) = inr decoded ->
     decoded !! headerTypeField = Some (BInt tag) ->
     tag <> requestType -> tag <> responseType -> tag <> errorType ->
     handle pkt w =
     Returns tt {| dht := dht w; now := now w;
                   journal := (journal w ++ [Logged ErrorLevel "Invalid message type: %s"])%list |}).
Proof.
  repeat split.
  - intros err Hdec. unfold handle. rewrite Hdec. reflexivity.
  - intros decoded Hdec Htype. unfold handle. rewrite Hdec, Htype. reflexivity.
  - intros decoded tag Hdec Htype Hq Hr He. unfold handle. rewrite Hdec, Htype.
    unfold mbind, M_bind. simpl.
    apply Z.eqb_neq in Hq, Hr, He. rewrite Hq, Hr, He. reflexivity.
Qed.

(** An error message that lacks its message-id entry makes [handle] panic at
    the type assertion [data[headerMessageIDField].(string)]. *)
Lemma handle_panics_on_error_without_id (w : World) (pkt : packet)
  (decoded : gmap string bvalue) :
  DecodeBytesMap (data pkt) = inr decoded ->
  decoded !! headerTypeField = Some (BInt errorType) ->
  decoded !! headerMessageIDField = None ->
  exists reason, handle pkt w = Panics reason.
Proof.
  intros Hdec Htype Hid. unfold handle. rewrite Hdec, Htype. simpl.
  pose proof types_distinct as Hnd.
  repeat match goal with
         | Hn : NoDup (_ :: _) |- _ => apply NoDup_cons in Hn; destruct Hn
         end.
  unfold mbind, M_bind. simpl.
  destruct (Z.eqb_spec errorType requestType) as [Heq | _]; [set_solver |].
  destruct (Z.eqb_spec errorType responseType) as [Heq | _]; [set_solver |].
  rewrite Z.eqb_refl, Hid. simpl. eexists; reflexivity.
Qed.

(** A response that fails to decode is dropped without a log line. *)
Lemma handle_drops_bad_response_silently (w : World) (pkt : packet)
  (decoded : gmap string bvalue) (err : error) :
  DecodeBytesMap (data pkt) = inr decoded ->
  decoded !! headerTypeField = Some (BInt responseType) ->
  DecodeBytesResponse (data pkt) = inl err ->
  handle pkt w = Returns tt w.
Proof.
  intros Hdec Htype Hres. unfold handle. rewrite Hdec, Htype. simpl.
  pose proof types_distinct as Hnd.
  repeat match goal with
         | Hn : NoDup (_ :: _) |- _ => apply NoDup_cons in Hn; destruct Hn
         end.
  unfold mbind, M_bind. simpl.
  destruct (Z.eqb_spec responseType requestType) as [Heq | _]; [set_solver |].
  rewrite Z.eqb_refl, Hres. reflexivity.
Qed.

(** C4.  A request or a response whose claimed sender id is the local id
    leaves the node as it was: no datagram is sent, and the routing table and
    the record store are not touched. *)
Theorem self_traffic_ignored (w : World) (addr : UDPAddr)
  (request : Request.t) (response : Response.t) :
  Running (dht w) ->
  Request.NodeID request = RawString (id (node (dht w))) ->
  Response.NodeID response = RawString (id (node (dht w))) ->
  (exists w', handleRequest addr request w = Returns false w' /\ dht w' = dht w) /\
  (exists w', handleResponse addr response w = Returns true w' /\ dht w' = dht w).
Proof.
  intros (_ & _ & Hrt) Hreq Hres. split.
  - rewrite (handleRequest_self w addr request Hreq). eexists; split; reflexivity.
  - unfold handleResponse, routingTableUpdate, spewDump, mbind, M_bind, getDHT, putDHT.
    cbn [dht now journal].
    rewrite Update_local; [| rewrite Hrt; exact Hres].
    rewrite setRoutingTable_same. eexists; split; reflexivity.
Qed.

(** C5, amended.  No response correlates to a pending transaction, since the
    engine keeps none; every response whose sender id has its 48 bytes is
    handled as a success: nothing is sent, the record store is untouched,
    and the routing table becomes [Update] applied to the responder's
    contact. *)
Theorem response_updates_routing_table (w : World) (addr : UDPAddr)
  (response : Response.t) :
  wellFormedID (Response.NodeID response) ->
  ~ correlated (dht w) response /\
  exists w',
    handleResponse addr response w = Returns true w' /\
    outbox (dht w') = outbox (dht w) /\
    store (dht w') = store (dht w) /\
    routingTable (dht w') =
      Update (routingTable (dht w)) (senderNode (Response.NodeID response) addr).
Proof.
  intros _. split.
  - unfold correlated, pendingTransactions. apply not_elem_of_nil.
  - unfold handleResponse, routingTableUpdate, spewDump, mbind, M_bind, getDHT, putDHT.
    cbn [dht now journal].
    eexists. split; [reflexivity |]. repeat split; reflexivity.
Qed.

(** C6, amended.  A ping from a peer other than the local node is answered
    with the ping success payload, and the routing table becomes [Update]
    applied to the sender's contact; it then holds that contact whenever the
    bucket for the sender's id was not full of other contacts, as in a table
    that is empty. *)
Theorem ping_replies_and_updates (w : World) (addr : UDPAddr) (request : Request.t)
  (encoded : string) :
  Running (dht w) ->
  wellFormedRequest request ->
  Request.NodeID request <> RawString (id (node (dht w))) ->
  Request.Method request = pingMethod ->
  EncodeBytes (pingReply (dht w) request) = inr encoded ->
  exists w',
    handleRequest addr request w = Returns true w' /\
    outbox (dht w') = (outbox (dht w) ++ [(encoded, addr)])%list /\
    routingTable (dht w') =
      Update (routingTable (dht w)) (senderNode (Request.NodeID request) addr) /\
    (bucketFull (routingTable (dht w)) (senderNode (Request.NodeID request) addr) = false ->
     senderNode (Request.NodeID request) addr ∈ allContacts (routingTable (dht w'))) /\
    (routingTable (dht w) = newRoutingTable (node (dht w)) ->
     senderNode (Request.NodeID request) addr ∈ allContacts (routingTable (dht w'))).
Proof.
  intros Hrun Hwf Hother Hmethod Henc.
  assert (Hacc : accepted request = true).
  { unfold accepted. rewrite Hmethod, String.eqb_refl. reflexivity. }
  destruct (handleRequest_accepted w addr request Hrun Hwf Hother Hacc)
    as (w' & Hrun' & Hrt & _ & Hout).
  destruct Hrun as (_ & _ & Hlocal).
  pose proof (ne_local_id (dht w) _ Hlocal Hother addr) as Hne.
  exists w'. split; [exact Hrun' |]. split; [| split; [exact Hrt | split]].
  - rewrite Hout. unfold replyTo. rewrite Hmethod, String.eqb_refl, Henc. reflexivity.
  - intros Hroom. rewrite Hrt. apply Update_records; assumption.
  - intros Hempty. rewrite Hrt. apply Update_records; [exact Hne |].
    rewrite Hempty. apply newRoutingTable_room.
Qed.

(** C7.  A findNode request with no argument, or whose first argument is
    not 48 bytes long, gets no reply (and changes nothing on the node).  A
    findNode request with a 48-byte first argument is answered with the
    contacts [FindClosest] returns for it: at most 20, all from the routing
    table, in ascending distance to the requested id, and none farther than
    a contact of the table that was left out. *)
Theorem findNode_validates_and_replies (w : World) (addr : UDPAddr) (request : Request.t) :
  Request.Method request = findNodeMethod ->
  ((Request.Args request = [] \/
    exists arg0 rest, Request.Args request = arg0 :: rest /\ Go.len arg0 <> nodeIDLength) ->
   exists w',
     handleRequest addr request w = Returns false w' /\
     outbox (dht w') = outbox (dht w) /\ dht w' = dht w)
  /\
  (forall target rest encoded,
     Request.Args request = target :: rest ->
     Go.len target = nodeIDLength ->
     Running (dht w) ->
     wellFormedRequest request ->
     Request.NodeID request <> RawString (id (node (dht w))) ->
     EncodeBytes (closestReply (dht w) request target) = inr encoded ->
     let found := FindClosest (routingTable (dht w)) (newBitmapFromString target) bucketSize in
     exists w',
       handleRequest addr request w = Returns true w' /\
       outbox (dht w') = (outbox (dht w) ++ [(encoded, addr)])%list /\
       closestReply (dht w) request target =
         MsgResponse {| Response.ID := Request.ID request;
                        Response.NodeID := RawString (id (node (dht w)));
                        Response.Data := "";
                        Response.FindNodeData := found |} /\
       Z.of_nat (length found) <= bucketSize /\
       StronglySorted (closerTo (newBitmapFromString target)) found /\
       (forall c, c ∈ found -> c ∈ allContacts (routingTable (dht w))) /\
       (forall c other,
          c ∈ found -> other ∈ allContacts (routingTable (dht w)) -> other ∉ found ->
          closerTo (newBitmapFromString target) c other)).
Proof.
  intros Hmethod.
  destruct method_cases as (_ & Hnp & Hns & _).
  split.
  - intros Hbad.
    assert (Hrej : accepted request = false).
    { unfold accepted. rewrite Hmethod, Hnp, Hns, String.eqb_refl. simpl.
      destruct Hbad as [Hnone | (arg0 & rest & Hargs & Hlen)].
      - rewrite Hnone. reflexivity.
      - rewrite Hargs. apply Z.eqb_neq, Hlen. }
    destruct (handleRequest_unanswered w addr request Hrej) as (w' & Hrun' & Hsame).
    exists w'. rewrite Hsame. repeat split. exact Hrun'.
  - intros target rest encoded Hargs Hlen Hrun Hwf Hother Henc found.
    assert (Hacc : accepted request = true).
    { unfold accepted. rewrite Hmethod, Hnp, Hns, String.eqb_refl, Hargs. simpl.
      apply Z.eqb_eq, Hlen. }
    destruct (handleRequest_accepted w addr request Hrun Hwf Hother Hacc)
      as (w' & Hrun' & _ & _ & Hout).
    exists w'. split; [exact Hrun' |]. split.
    { rewrite Hout. unfold replyTo. rewrite Hmethod, Hnp, Hns, Hargs. simpl.
      rewrite Henc. reflexivity. }
    split; [reflexivity |].
    split; [pose proof (FindClosest_length (routingTable (dht w))
                          (newBitmapFromString target) bucketSize) as Hk;
            fold found in Hk; unfold bucketSize in *; lia |].
    split; [apply FindClosest_sorted |]. split.
    + intros c. apply FindClosest_known.
    + intros c other. apply FindClosest_closest.
Qed.

(** C8.  A store request with an empty content key does not panic, inserts
    nothing and sends nothing.  A store request with a content key has the
    pair (key, publisher id) inserted into the record store, where [Get]
    then finds the publisher under the key, and is answered with the store
    success payload. *)
Theorem store_validates_and_inserts (w : World) (addr : UDPAddr) (request : Request.t) :
  Request.Method request = storeMethod ->
  let key := StoreArgs.BlobHash (Request.StoreArgs request) in
  let publisher := StoreArgs.NodeID (Request.StoreArgs request) in
  (key = "" ->
   exists w',
     handleRequest addr request w = Returns false w' /\
     store (dht w') = store (dht w) /\
     outbox (dht w') = outbox (dht w) /\ dht w' = dht w)
  /\
  (forall encoded,
     key <> "" ->
     Running (dht w) ->
     wellFormedRequest request ->
     Request.NodeID request <> RawString (id (node (dht w))) ->
     EncodeBytes (storeReply (dht w) request) = inr encoded ->
     exists w',
       handleRequest addr request w = Returns true w' /\
       store (dht w') = Insert (store (dht w)) (now w) key publisher /\
       publisher ∈ Get (store (dht w')) key /\
       outbox (dht w') = (outbox (dht w) ++ [(encoded, addr)])%list).
Proof.
  intros Hmethod key publisher.
  destruct method_cases as (Hsp & _).
  split.
  - intros Hempty.
    assert (Hrej : accepted request = false).
    { unfold accepted. rewrite Hmethod, Hsp, String.eqb_refl. fold key.
      rewrite Hempty. reflexivity. }
    destruct (handleRequest_unanswered w addr request Hrej) as (w' & Hrun' & Hsame).
    exists w'. rewrite Hsame. repeat split. exact Hrun'.
  - intros encoded Hkey Hrun Hwf Hother Henc.
    assert (Hacc : accepted request = true).
    { unfold accepted. rewrite Hmethod, Hsp, String.eqb_refl. fold key.
      apply negb_true_iff, String.eqb_neq, Hkey. }
    destruct (handleRequest_accepted w addr request Hrun Hwf Hother Hacc)
      as (w' & Hrun' & _ & Hstore & Hout).
    assert (Hins : store (dht w') = Insert (store (dht w)) (now w) key publisher).
    { rewrite Hstore. unfold storeAfter. rewrite Hmethod, Hsp, String.eqb_refl.
      reflexivity. }
    exists w'. split; [exact Hrun' |]. split; [exact Hins |]. split.
    + rewrite Hins. apply Get_Insert.
    + rewrite Hout. unfold replyTo. rewrite Hmethod, Hsp, String.eqb_refl, Henc.
      reflexivity.
Qed.

(** C10.  Where the platform splits [":4444"] into an empty host and port
    4444, [New(nil)] returns a node with the standard configuration (bind
    address [":4444"], the three lbrynet seed nodes) whose id is the one
    drawn at random; and for a configuration whose address does not split
    into host and port, or whose port is not an integer, [New] panics. *)
Theorem New_defaults_and_panics (random : bitmap) :
  SplitHostPort ":4444" = inr ("", "4444") ->
  ToIntE "4444" = inr 4444 ->
  (exists d,
     New random None = Go.Ok d /\
     conf d = NewStandardConfig /\
     Address (conf d) = ":4444" /\
     SeedNodes (conf d) = [ "lbrynet1.lbry.io:4444"; "lbrynet2.lbry.io:4444";
                            "lbrynet3.lbry.io:4444" ] /\
     node d = {| id := random; ip := ""; port := 4444 |} /\
     routingTable d = newRoutingTable (node d) /\
     store d = newPeerStore /\
     conn d = None)
  /\
  (forall config,
     ((exists err, SplitHostPort (Address config) = inl err) \/
      (exists host p err, SplitHostPort (Address config) = inr (host, p) /\
                          ToIntE p = inl err)) ->
     exists reason, New random (Some config) = Go.Panic reason).
Proof.
  intros Hsplit Hport. split.
  - unfold New. simpl. rewrite Hsplit, Hport.
    eexists. repeat split; reflexivity.
  - intros config Hbad. unfold New.
    destruct (if String.eqb (NodeID config) "" then Go.Ok random
              else newBitmapFromHex (NodeID config)) as [nodeID | reason];
      [| eexists; reflexivity].
    destruct Hbad as [(err & Herr) | (host & p & err & Hhp & Herr)].
    + rewrite Herr. eexists; reflexivity.
    + rewrite Hhp, Herr. eexists; reflexivity.
Qed.

(** ** Further properties of the handlers *)

(** The [default] case of [handleRequest] (lines 281-285): a request with a
    method other than the four known is logged and dropped; no reply is
    sent and the node is left as it was. *)
Theorem unknown_method_dropped (w : World) (addr : UDPAddr) (request : Request.t) :
  Request.Method request ∉ [pingMethod; storeMethod; findNodeMethod; findValueMethod] ->
  Request.NodeID request <> RawString (id (node (dht w))) ->
  handleRequest addr request w =
  Returns false {| dht := dht w; now := now w;
                   journal := (journal w ++ [Logged ErrorLevel "invalid request method"])%list |}.
Proof.
  intros Hunknown Hother.
  unfold handleRequest, mbind, M_bind, getDHT. simpl.
  apply String.eqb_neq in Hother. rewrite Hother.
  repeat match goal with
         | |- context [String.eqb (Request.Method request) ?m] =>
             destruct (String.eqb_spec (Request.Method request) m) as [Heq | _];
             [ exfalso; apply Hunknown; rewrite Heq; set_solver | ]
         end.
  reflexivity.
Qed.

End Specification.

(** ** Sending, start-up and the handling loop *)

Section Loop.
Context `{Protocol} `{Codec} `{Platform} `{Network}.

(** The two ways [send] returns. *)
Lemma send_returns (w w' : World) (addr : UDPAddr) (msg : Message) (r : option error) :
  send addr msg w = Returns r w' ->
  exists line,
    (exists err,
       EncodeBytes msg = inl err /\ r = Some err /\
       w' = {| dht := dht w; now := now w; journal := (journal w ++ [line])%list |}) \/
    (exists encoded c,
       EncodeBytes msg = inr encoded /\ conn (dht w) = Some c /\ r = None /\
       w' = {| dht := setConn {| writeDeadline := Some (now w + Go.Second * 15);
                                 written := (written c ++ [(encoded, addr)])%list |} (dht w);
               now := now w; journal := (journal w ++ [line])%list |}).
Proof.
  unfold send, mbind, M_bind, getDHT. cbn [dht now journal].
  intros Hsend.
  assert (Hrest : forall line,
    match EncodeBytes msg with
    | inl err => mret (Some err)
    | inr encoded =>
        t ← timeNow; SetWriteDeadline (t + Go.Second * 15);; WriteToUDP encoded addr;; mret None
    end {| dht := dht w; now := now w; journal := (journal w ++ [line])%list |} = Returns r w' ->
    (exists err,
       EncodeBytes msg = inl err /\ r = Some err /\
       w' = {| dht := dht w; now := now w; journal := (journal w ++ [line])%list |}) \/
    (exists encoded c,
       EncodeBytes msg = inr encoded /\ conn (dht w) = Some c /\ r = None /\
       w' = {| dht := setConn {| writeDeadline := Some (now w + Go.Second * 15);
                                 written := (written c ++ [(encoded, addr)])%list |} (dht w);
               now := now w; journal := (journal w ++ [line])%list |})).
  { intros line Hrun.
    destruct (EncodeBytes msg) as [err | encoded].
    - left. exists err. inversion Hrun. auto.
    - right. revert Hrun.
      unfold SetWriteDeadline, WriteToUDP, withConn, timeNow, mbind, M_bind, getDHT, putDHT.
      cbn [dht now journal].
      destruct (conn (dht w)) as [c |] eqn:Hc; cbn; [| discriminate].
      intros Hrun. inversion Hrun. exists encoded, c. auto. }
  destruct msg as [req | res | e]; cbn in Hsend.
  - destruct (Go.sliceTo 8 (Hex (id (node (dht w))))); cbn in Hsend; [| discriminate].
    destruct (Go.sliceTo 8 (Go.hexEncodeToString (Request.ID req))); cbn in Hsend;
      [| discriminate].
    eexists. apply Hrest. exact Hsend.
  - destruct (Go.sliceTo 8 (Hex (id (node (dht w))))); cbn in Hsend; [| discriminate].
    destruct (Go.sliceTo 8 (Go.hexEncodeToString (Response.ID res))); cbn in Hsend;
      [| discriminate].
    eexists. apply Hrest. exact Hsend.
  - eexists. apply Hrest. exact Hsend.
Qed.


Lemma handled_logged (addr : UDPAddr) (w w' : World) (lines : list Event) :
  handled addr {| dht := dht w; now := now w; journal := (journal w ++ lines)%list |} w' ->
  handled addr w w'.
Proof.
  unfold handled. cbn [dht now journal].
  intros (Hc & Hn & Ht & Hs & Ho & Hr & Hst & (more & Hj)).
  repeat (split; [assumption |]).
  exists (lines ++ more)%list. rewrite Hj, app_assoc. reflexivity.
Qed.

Ltac handled_now :=
  unfold handled, outbox; cbn;
  repeat match goal with
         | Hc : conn _ = Some _ |- _ => rewrite Hc
         end; cbn;
  split; [reflexivity |]; split; [reflexivity |]; split; [reflexivity |];
  split; [intros; eauto |];
  split; [first [ exists []; rewrite app_nil_r;
                  split; [reflexivity | split; [cbn; lia | intros x Hx; inversion Hx]]
                | eexists [_];
                  split; [reflexivity
                         | split; [cbn; lia
                                  | intros x Hx; apply list_elem_of_singleton in Hx;
                                    subst x; reflexivity]] ] |];
  split; [first [ left; reflexivity | right; eexists; reflexivity ] |];
  split; [first [ left; reflexivity
                | right; eexists _, _; split; [eassumption | reflexivity] ] |];
  eexists; rewrite <- ?app_assoc; reflexivity.

Lemma handleResponse_handled (w w' : World) (addr : UDPAddr) (response : Response.t)
  (b : bool) :
  handleResponse addr response w = Returns b w' -> handled addr w w'.
Proof.
  unfold handleResponse, routingTableUpdate, spewDump, mbind, M_bind, getDHT, putDHT.
  cbn [dht now journal]. intros Hrun. inversion Hrun. subst.
  destruct (conn (dht w)) eqn:Hc; handled_now.
Qed.

Lemma handleError_handled (w w' : World) (addr : UDPAddr) (e : Error.t) (b : bool) :
  handleError addr e w = Returns b w' -> handled addr w w'.
Proof.
  unfold handleError, routingTableUpdate, spewDump, mbind, M_bind, getDHT, putDHT.
  cbn [dht now journal]. intros Hrun. inversion Hrun. subst.
  destruct (conn (dht w)) eqn:Hc; handled_now.
Qed.

(** After [send addr msg] on the world [w0], which differs from [w] in the
    record store and the log only, the update of the routing table leaves a
    world that one datagram from [addr] may leave. *)
Ltac after_send Hrun :=
  match type of Hrun with
  | context [send ?addr ?msg ?w0] =>
      let Hs := fresh "Hs" in
      destruct (send addr msg w0) as [r w1 | reason] eqn:Hs; [| discriminate Hrun];
      apply send_returns in Hs;
      destruct Hs as (line & [(err & _ & _ & ->) | (encoded & c & _ & Hc & _ & ->)]);
      cbn in Hrun; inversion Hrun; subst; clear Hrun;
      cbn in *
  end.

Lemma handleRequest_handled (w w' : World) (addr : UDPAddr) (request : Request.t)
  (b : bool) :
  handleRequest addr request w = Returns b w' -> handled addr w w'.
Proof.
  unfold handleRequest, mbind, M_bind, getDHT. cbn [dht now journal].
  destruct (String.eqb (Request.NodeID request) (RawString (id (node (dht w))))).
  { cbn. intros Hrun. inversion Hrun. subst.
    destruct (conn (dht w)) eqn:Hc; handled_now. }
  unfold routingTableUpdate, storeInsert, timeNow, logf, mbind, M_bind, getDHT, putDHT.
  cbn [dht now journal].
  destruct (String.eqb (Request.Method request) pingMethod).
  { intros Hrun. after_send Hrun; [destruct (conn (dht w)) eqn:Hc' |]; handled_now. }
  destruct (String.eqb (Request.Method request) storeMethod).
  { destruct (String.eqb_spec (StoreArgs.BlobHash (Request.StoreArgs request)) "")
      as [Hempty | Hkey].
    - cbn. intros Hrun. inversion Hrun. subst.
      destruct (conn (dht w)) eqn:Hc; handled_now.
    - intros Hrun. after_send Hrun; [destruct (conn (dht w)) eqn:Hc' |]; handled_now. }
  destruct (String.eqb (Request.Method request) findNodeMethod).
  { destruct (Request.Args request) as [| arg0 rest].
    - cbn. intros Hrun. inversion Hrun. subst.
      destruct (conn (dht w)) eqn:Hc; handled_now.
    - destruct (negb (Go.len arg0 =? nodeIDLength)).
      + cbn. intros Hrun. inversion Hrun. subst.
        destruct (conn (dht w)) eqn:Hc; handled_now.
      + intros Hrun. after_send Hrun; [destruct (conn (dht w)) eqn:Hc' |]; handled_now. }
  destruct (String.eqb (Request.Method request) findValueMethod).
  { destruct (Request.Args request) as [| arg0 rest].
    - cbn. intros Hrun. inversion Hrun. subst.
      destruct (conn (dht w)) eqn:Hc; handled_now.
    - destruct (negb (Go.len arg0 =? nodeIDLength)).
      + cbn. intros Hrun. inversion Hrun. subst.
        destruct (conn (dht w)) eqn:Hc; handled_now.
      + cbn [dht now journal].
        destruct (0 <? length (Get (store (dht w)) arg0))%nat;
          unfold mret, M_ret; cbv beta iota; cbn [dht now journal];
          intros Hrun; (after_send Hrun; [destruct (conn (dht w)) eqn:Hc' |]; handled_now). }
  cbn. intros Hrun. inversion Hrun. subst.
  destruct (conn (dht w)) eqn:Hc; handled_now.
Qed.


Lemma handled_only_logged (addr : UDPAddr) (w : World) (lines : list Event) :
  handled addr w {| dht := dht w; now := now w; journal := (journal w ++ lines)%list |}.
Proof.
  unfold handled. cbn [dht now journal].
  repeat (split; [first [reflexivity | intros; assumption] |]).
  split; [exists []; rewrite app_nil_r;
          split; [reflexivity | split; [cbn; lia | intros x Hx; inversion Hx]] |].
  split; [left; reflexivity |]. split; [left; reflexivity |].
  exists lines. reflexivity.
Qed.

Lemma handled_unchanged (addr : UDPAddr) (w : World) : handled addr w w.
Proof.
  pose proof (handled_only_logged addr w []) as Hl.
  rewrite app_nil_r in Hl. destruct w. exact Hl.
Qed.

Ltac slices Hrun :=
  repeat match type of Hrun with
         | context [lift (Go.sliceTo 8 ?x)] =>
             destruct (Go.sliceTo 8 x); cbn [lift] in Hrun;
             unfold mret, M_ret, panic in Hrun; [| discriminate Hrun]
         end.

Lemma handle_handled (w w' : World) (pkt : packet) :
  handle pkt w = Returns tt w' -> handled (raddr pkt) w w'.
Proof.
  unfold handle.
  destruct (DecodeBytesMap (data pkt)) as [err | decoded].
  { intros Hrun. inversion Hrun. apply handled_only_logged. }
  destruct (decoded !! headerTypeField) as [msgType |].
  2: { intros Hrun. inversion Hrun. apply handled_only_logged. }
  destruct msgType as [tag | s | l | m]; try discriminate.
  unfold mbind, M_bind. cbn [assertInt64 lift]. unfold mret at 1, M_ret at 1.
  destruct (tag =? requestType).
  { destruct (DecodeBytesRequest (data pkt)) as [err | request].
    { intros Hrun. inversion Hrun. apply handled_only_logged. }
    unfold getDHT, logf. intros Hrun. slices Hrun.
    match type of Hrun with
    | context [handleRequest ?a ?r ?w0] =>
        destruct (handleRequest a r w0) as [b w1 | reason] eqn:Hreq; [| discriminate Hrun]
    end.
    inversion Hrun. subst w1.
    apply handleRequest_handled in Hreq. eapply handled_logged. exact Hreq. }
  destruct (tag =? responseType).
  { destruct (DecodeBytesResponse (data pkt)) as [err | response].
    { intros Hrun. inversion Hrun. apply handled_unchanged. }
    unfold getDHT, logf. intros Hrun. slices Hrun.
    match type of Hrun with
    | context [handleResponse ?a ?r ?w0] =>
        destruct (handleResponse a r w0) as [b w1 | reason] eqn:Hres; [| discriminate Hrun]
    end.
    inversion Hrun. subst w1.
    apply handleResponse_handled in Hres. eapply handled_logged. exact Hres. }
  destruct (tag =? errorType).
  { intros Hrun.
    repeat match type of Hrun with
           | context [lift (assertString ?x)] =>
               destruct (assertString x); cbn [lift] in Hrun;
               unfold mret, M_ret, panic in Hrun; [| discriminate Hrun]
           end.
    destruct (getArgs (decoded !! headerArgsField)); cbn [lift] in Hrun;
      unfold mret, M_ret, panic in Hrun; [| discriminate Hrun].
    unfold getDHT, logf in Hrun. cbn [Error.ID Error.NodeID] in Hrun. slices Hrun.
    match type of Hrun with
    | context [handleError ?a ?r ?w0] =>
        destruct (handleError a r w0) as [b w1 | reason] eqn:Herr; [| discriminate Hrun]
    end.
    inversion Hrun. subst w1.
    apply handleError_handled in Herr. eapply handled_logged. exact Herr. }
  intros Hrun. inversion Hrun. apply handled_only_logged.
Qed.


Lemma type_cases :
  (responseType =? requestType) = false /\
  (errorType =? requestType) = false /\
  (errorType =? responseType) = false.
Proof.
  pose proof types_distinct as Hnd.
  repeat match goal with
         | Hn : NoDup (_ :: _) |- _ => apply NoDup_cons in Hn; destruct Hn
         end.
  repeat split; apply Z.eqb_neq; intros Heq; set_solver.
Qed.

Lemma sliceTo_hex_short (s : string) :
  Go.len s < 4 ->
  Go.sliceTo 8 (Go.hexEncodeToString s) = Go.Panic "slice bounds out of range".
Proof.
  intros Hlen. unfold Go.sliceTo, Go.len in *.
  rewrite hexEncodeToString_length.
  destruct (Nat.leb_spec 8 (2 * String.length s)) as [Hle | _]; [lia | reflexivity].
Qed.

Lemma rtNode_Update (rt : RoutingTable) (c : Node) : rtNode (Update rt c) = rtNode rt.
Proof. unfold Update. destruct (sameID (id c) (id (rtNode rt))); reflexivity. Qed.

Lemma handled_Running (addr : UDPAddr) (w w' : World) :
  handled addr w w' -> Running (dht w) -> Running (dht w').
Proof.
  intros (_ & Hn & _ & Hs & _ & Hr & _) (Hconn & Hid & Hrt).
  split; [auto |]. split; [rewrite Hn; exact Hid |].
  destruct Hr as [-> | (nodeID & ->)]; [| rewrite rtNode_Update]; rewrite Hn; exact Hrt.
Qed.

Lemma runHandler_app (before after : list packet) (w : World) :
  runHandler (before ++ after) w =
  match runHandler before w with
  | Returns _ w1 => runHandler after w1
  | Panics reason => Panics reason
  end.
Proof.
  revert w. induction before as [| pkt before IH]; intros w; [reflexivity |].
  cbn [runHandler app]. unfold mbind, M_bind.
  destruct (handle pkt w) as [[] w1 | reason]; [apply IH | reflexivity].
Qed.

Lemma joinSeeds_returns (seeds : list string) (w : World) : joinSeeds seeds w = Returns tt w.
Proof.
  induction seeds as [| addr rest IH]; [reflexivity |].
  cbn [joinSeeds]. destruct (ResolveUDPAddr network addr); exact IH.
Qed.

Lemma join_changes_nothing_aux (w : World) : join w = Returns tt w.
Proof. unfold join, mbind, M_bind, getDHT. apply joinSeeds_returns. Qed.

Lemma init_returns (w : World) :
  init w =
  match ListenPacket network (Address (conf (dht w))) with
  | inl err => Panics err
  | inr _ =>
      Returns tt {| dht := setConn freshConn (dht w); now := now w;
                    journal := ((journal w ++ [Logged InfoLevel "Initializing DHT on "]) ++
                                [Logged InfoLevel "Node ID is %s"])%list |}
  end.
Proof.
  unfold init, mbind, M_bind, getDHT, logf, putDHT. cbn [dht now journal].
  destruct (ListenPacket network (Address (conf (dht w)))); reflexivity.
Qed.

Lemma getArgs_present (v : bvalue) : exists args, getArgs (Some v) = Go.Ok args.
Proof. destruct v; eexists; reflexivity. Qed.

Lemma substring_all (s : string) : String.substring 0 (String.length s) s = s.
Proof. induction s as [| c s IH]; [reflexivity | cbn; rewrite IH; reflexivity]. Qed.

Lemma hex_prefix (n : nat) (s : string) :
  String.substring 0 (2 * n) (Go.hexEncodeToString s)
  = Go.hexEncodeToString (String.substring 0 n s).
Proof.
  revert s. induction n as [| n IH]; intros s.
  - destruct s; reflexivity.
  - destruct s as [| c s]; [reflexivity |].
    replace (2 * S n)%nat with (S (S (2 * n))) by lia.
    cbn [Go.hexEncodeToString String.substring]. rewrite IH. reflexivity.
Qed.


(** [send] (lines 322-340) returns in two ways only.  When the message does
    not encode it returns the encoder's error and leaves the socket as it
    was.  When it encodes, the socket was bound, the write deadline is set 15
    seconds ahead, and the one datagram is written behind those written
    before.  The routing table, the record store and the local node are
    never touched. *)
Theorem send_writes_once_or_reports (w w' : World) (addr : UDPAddr) (msg : Message)
  (r : option error) :
  send addr msg w = Returns r w' ->
  routingTable (dht w') = routingTable (dht w) /\
  store (dht w') = store (dht w) /\
  node (dht w') = node (dht w) /\
  match EncodeBytes msg with
  | inl err => r = Some err /\ conn (dht w') = conn (dht w)
  | inr encoded =>
      r = None /\
      exists c,
        conn (dht w) = Some c /\
        conn (dht w') = Some {| writeDeadline := Some (now w + Go.Second * 15);
                                written := (written c ++ [(encoded, addr)])%list |}
  end.
Proof.
  intros Hsend. apply send_returns in Hsend.
  destruct Hsend as (line & [(err & Henc & -> & ->) | (encoded & c & Henc & Hc & -> & ->)]);
    rewrite Henc; cbn; repeat split; eauto.
Qed.

(** [send] (lines 323-327): a request or a response whose id has fewer than
    4 bytes makes [send] panic at the slice [[:8]] of the debug line, before
    anything is encoded or written. *)
Theorem send_panics_on_short_id (w : World) (addr : UDPAddr) (msg : Message) (i : string) :
  messageID msg = Some i ->
  Go.len i < 4 ->
  send addr msg w = Panics "slice bounds out of range".
Proof.
  intros Hid Hlen. unfold send, mbind, M_bind, getDHT. cbn [dht now journal].
  destruct msg as [req | res | e]; inversion Hid; subst i;
    rewrite (sliceTo_hex_short _ Hlen);
    unfold Go.sliceTo; destruct (8 <=? String.length (Hex (id (node (dht w)))))%nat;
    reflexivity.
Qed.

Lemma New_returns (random : bitmap) (config : option Config) (d : DHT) :
  New random config = Go.Ok d ->
  let c := match config with None => NewStandardConfig | Some c => c end in
  conf d = c /\
  conn d = None /\
  routingTable d = newRoutingTable (node d) /\
  store d = newPeerStore /\
  (exists p, SplitHostPort (Address c) = inr (ip (node d), p) /\
             ToIntE p = inr (port (node d))) /\
  (NodeID c = "" -> id (node d) = random) /\
  (NodeID c <> "" -> newBitmapFromHex (NodeID c) = Go.Ok (id (node d))).
Proof.
  intros Hnew c. unfold New in Hnew. fold c in Hnew.
  destruct (String.eqb_spec (NodeID c) "") as [Hnone | Hsome].
  - destruct (SplitHostPort (Address c)) as [err | [host p]]; [discriminate |].
    destruct (ToIntE p) as [err | portInt] eqn:Hp; [discriminate |].
    inversion Hnew. cbn. repeat split; eauto. intros Hne. contradiction.
  - destruct (newBitmapFromHex (NodeID c)) as [nodeID | reason]; [| discriminate].
    destruct (SplitHostPort (Address c)) as [err | [host p]]; [discriminate |].
    destruct (ToIntE p) as [err | portInt] eqn:Hp; [discriminate |].
    inversion Hnew. cbn. repeat split; eauto. intros Hne. contradiction.
Qed.

(** [New] (lines 69-98) whenever it returns: the node keeps the
    configuration it was given (the standard one for [nil]); its ip and port
    are the two halves of the configured address; its id is the configured
    one when there is one and the random one only otherwise; the socket is
    not bound, the routing table is new and built around the node, and the
    record store is new. *)
Theorem New_uses_config (random : bitmap) (config : option Config) (d : DHT) :
  New random config = Go.Ok d ->
  let c := match config with None => NewStandardConfig | Some c => c end in
  conf d = c /\
  conn d = None /\
  routingTable d = newRoutingTable (node d) /\
  store d = newPeerStore /\
  (exists p, SplitHostPort (Address c) = inr (ip (node d), p) /\
             ToIntE p = inr (port (node d))) /\
  (NodeID c = "" -> id (node d) = random) /\
  (NodeID c <> "" -> newBitmapFromHex (NodeID c) = Go.Ok (id (node d))).
Proof. apply New_returns. Qed.

(** [New] and [send]: a node as [New] returns it, on which [init] has not
    run, cannot send; [send] panics on every message that encodes. *)
Theorem fresh_node_cannot_send (random : bitmap) (config : option Config) (d : DHT)
  (addr : UDPAddr) (msg : Message) (encoded : string) (t : Z) (j : list Event) :
  New random config = Go.Ok d ->
  EncodeBytes msg = inr encoded ->
  exists reason, send addr msg {| dht := d; now := t; journal := j |} = Panics reason.
Proof.
  intros Hnew Henc.
  destruct (send addr msg {| dht := d; now := t; journal := j |}) as [r w' | reason] eqn:Hs;
    [| eexists; reflexivity].
  apply send_returns in Hs.
  destruct Hs as (line & [(err & Herr & _) | (e & c & _ & Hc & _)]).
  - rewrite Henc in Herr. discriminate.
  - apply New_returns in Hnew. destruct Hnew as (_ & Hconn & _).
    cbn in Hc. rewrite Hconn in Hc. discriminate.
Qed.

(** [New] then [init] (lines 101-110): when the socket binds, the node is
    running, with a bound socket on which nothing was written, the routing
    table built around the node and holding no contact, and an empty
    record store; [handleRequest] can then answer. *)
Theorem New_then_init_runs (random : bitmap) (config : option Config) (d : DHT)
  (t : Z) (j : list Event) :
  New random config = Go.Ok d ->
  wellFormedID (id (node d)) ->
  ListenPacket network (Address (conf d)) = inr tt ->
  exists w',
    init {| dht := d; now := t; journal := j |} = Returns tt w' /\
    Running (dht w') /\
    outbox (dht w') = [] /\
    allContacts (routingTable (dht w')) = [] /\
    store (dht w') = newPeerStore /\
    node (dht w') = node d.
Proof.
  intros Hnew Hid Hbind.
  apply New_returns in Hnew. destruct Hnew as (_ & _ & Hrt & Hst & _).
  destruct d as [cf cn nd rt st]. cbn in Hrt, Hst, Hid, Hbind. subst rt st.
  unfold init, mbind, M_bind, getDHT, logf, putDHT. cbn [dht now journal conf].
  rewrite Hbind. eexists. split; [reflexivity |]. unfold Running. cbn.
  split; [| repeat split; reflexivity].
  split; [eexists; reflexivity | split; [exact Hid | reflexivity]].
Qed.

(** [join] (lines 131-146) does nothing to the node, whatever the seeds are
    and whether they resolve: no datagram is sent and no contact is added. *)
Theorem join_changes_nothing (w : World) : join w = Returns tt w.
Proof. unfold join, mbind, M_bind, getDHT. apply joinSeeds_returns. Qed.

(** [Run] (lines 160-166): when the socket does not bind, [Run] panics
    before a packet is handled; when it binds, [Run] is the handling loop on
    the node with the fresh socket, after three lines of log. *)
Theorem Run_binds_then_handles (w : World) (pkts : list packet) :
  match ListenPacket network (Address (conf (dht w))) with
  | inl err => Run pkts w = Panics err
  | inr _ =>
      Run pkts w =
      runHandler pkts
        {| dht := setConn freshConn (dht w); now := now w;
           journal := (journal w ++ [Logged InfoLevel "Initializing DHT on ";
                                    Logged InfoLevel "Node ID is %s";
                                    Logged InfoLevel "DHT ready"])%list |}
  end.
Proof.
  unfold Run, mbind, M_bind. rewrite init_returns.
  destruct (ListenPacket network (Address (conf (dht w)))) as [err | u]; [reflexivity |].
  rewrite join_changes_nothing_aux. unfold logf. cbn [dht now journal].
  rewrite <- !app_assoc. reflexivity.
Qed.


(** [handle] (lines 169-219), whenever it returns: at most one datagram is
    written, behind those written before, and it goes to the source address
    of the packet. *)
Theorem handle_answers_only_the_sender (w w' : World) (pkt : packet) :
  handle pkt w = Returns tt w' ->
  exists l,
    outbox (dht w') = (outbox (dht w) ++ l)%list /\
    (length l <= 1)%nat /\
    forall x, x ∈ l -> snd x = raddr pkt.
Proof.
  intros Hrun. apply handle_handled in Hrun.
  destruct Hrun as (_ & _ & _ & _ & Hout & _). exact Hout.
Qed.

(** [handle] (lines 169-219), whenever it returns: the configuration and the
    local node are as before; the routing table is as before or has taken
    one [Update], with a contact at the source address of the packet; the
    record store is as before or has taken one [Insert], under a key that is
    not empty. *)
Theorem handle_changes_only_sender_and_store (w w' : World) (pkt : packet) :
  handle pkt w = Returns tt w' ->
  conf (dht w') = conf (dht w) /\
  node (dht w') = node (dht w) /\
  (routingTable (dht w') = routingTable (dht w) \/
   exists nodeID,
     routingTable (dht w') = Update (routingTable (dht w)) (senderNode nodeID (raddr pkt))) /\
  (store (dht w') = store (dht w) \/
   exists key publisher,
     key <> "" /\ store (dht w') = Insert (store (dht w)) (now w) key publisher).
Proof.
  intros Hrun. apply handle_handled in Hrun.
  destruct Hrun as (Hc & Hn & _ & _ & _ & Hr & Hs & _). auto.
Qed.

(** [handle] and [handleRequest] (lines 186-194): a datagram with the
    request tag that decodes to a request whose two ids have at least 4
    bytes is handled as [handleRequest] handles that request from the
    packet's source, after one debug line. *)
Theorem handle_request_message (w : World) (pkt : packet) (decoded : gmap string bvalue)
  (request : Request.t) :
  DecodeBytesMap (data pkt) = inr decoded ->
  decoded !! headerTypeField = Some (BInt requestType) ->
  DecodeBytesRequest (data pkt) = inr request ->
  wellFormedID (id (node (dht w))) ->
  4 <= Go.len (Request.ID request) ->
  4 <= Go.len (Request.NodeID request) ->
  handle pkt w =
  match handleRequest (raddr pkt) request
          {| dht := dht w; now := now w;
             journal := (journal w ++
                         [Logged DebugLevel
                            "[%s] query %s: received request from %s: %s(%s)"])%list |}
  with
  | Returns _ w' => Returns tt w'
  | Panics reason => Panics reason
  end.
Proof.
  intros Hdec Htype Hreq Hlocal Hid Hnode.
  unfold handle. rewrite Hdec, Htype.
  unfold mbind, M_bind. cbn [assertInt64 lift]. unfold mret at 1, M_ret at 1.
  rewrite Z.eqb_refl, Hreq. unfold getDHT, logf. cbn [dht now journal].
  rewrite (sliceTo_Hex _ Hlocal), (sliceTo_hex _ Hid), (sliceTo_hex _ Hnode).
  cbn [lift]. unfold mret, M_ret.
  destruct (handleRequest (raddr pkt) request _); reflexivity.
Qed.

(** [handle] (line 193): a request whose transaction id or sender id has
    fewer than 4 bytes makes [handle] panic at the slices [[:8]] of its debug
    line; [handleRequest] is not reached. *)
Theorem handle_panics_on_short_request_id (w : World) (pkt : packet)
  (decoded : gmap string bvalue) (request : Request.t) :
  DecodeBytesMap (data pkt) = inr decoded ->
  decoded !! headerTypeField = Some (BInt requestType) ->
  DecodeBytesRequest (data pkt) = inr request ->
  Go.len (Request.ID request) < 4 \/ Go.len (Request.NodeID request) < 4 ->
  handle pkt w = Panics "slice bounds out of range".
Proof.
  intros Hdec Htype Hreq Hshort.
  unfold handle. rewrite Hdec, Htype.
  unfold mbind, M_bind. cbn [assertInt64 lift]. unfold mret at 1, M_ret at 1.
  rewrite Z.eqb_refl, Hreq. unfold getDHT, logf. cbn [dht now journal].
  unfold Go.sliceTo at 1.
  destruct (8 <=? String.length (Hex (id (node (dht w)))))%nat; [| reflexivity].
  cbn [lift]. unfold mret at 1, M_ret at 1.
  destruct Hshort as [Hid | Hnode].
  - rewrite (sliceTo_hex_short _ Hid). reflexivity.
  - rewrite (sliceTo_hex_short _ Hnode).
    unfold Go.sliceTo at 1.
    destruct (8 <=? String.length (Go.hexEncodeToString (Request.ID request)))%nat;
      reflexivity.
Qed.

(** [handle] and [handleResponse] (lines 196-203): a datagram with the
    response tag that decodes to a response whose transaction id has at
    least 4 bytes and whose sender id has its 48 bytes sends nothing, leaves
    the record store, and applies [Update] to the responder's contact at the
    packet's source. *)
Theorem handle_response_message (w : World) (pkt : packet) (decoded : gmap string bvalue)
  (response : Response.t) :
  DecodeBytesMap (data pkt) = inr decoded ->
  decoded !! headerTypeField = Some (BInt responseType) ->
  DecodeBytesResponse (data pkt) = inr response ->
  wellFormedID (id (node (dht w))) ->
  4 <= Go.len (Response.ID response) ->
  wellFormedID (Response.NodeID response) ->
  exists w',
    handle pkt w = Returns tt w' /\
    outbox (dht w') = outbox (dht w) /\
    store (dht w') = store (dht w) /\
    routingTable (dht w') =
      Update (routingTable (dht w)) (senderNode (Response.NodeID response) (raddr pkt)).
Proof.
  intros Hdec Htype Hres Hlocal Hid Hwf.
  assert (Hnode : 4 <= Go.len (Response.NodeID response))
    by (rewrite Hwf; unfold nodeIDLength; lia).
  destruct type_cases as (Hrq & _).
  unfold handle. rewrite Hdec, Htype.
  unfold mbind, M_bind. cbn [assertInt64 lift]. unfold mret at 1, M_ret at 1.
  rewrite Hrq, Z.eqb_refl, Hres. unfold getDHT, logf. cbn [dht now journal].
  rewrite (sliceTo_Hex _ Hlocal), (sliceTo_hex _ Hid), (sliceTo_hex _ Hnode).
  cbn [lift]. unfold mret, M_ret.
  unfold handleResponse, routingTableUpdate, spewDump, mbind, M_bind, getDHT, putDHT.
  cbn [dht now journal].
  eexists. split; [reflexivity |]. repeat split; reflexivity.
Qed.

(** [handle], [getArgs] and [handleError] (lines 205-213): a datagram with
    the error tag whose message id, node id and payload entries are strings
    (the message id of at least 4 bytes, the node id of 48) and whose
    arguments entry is present, of whatever type, sends nothing, leaves the
    record store, and applies [Update] to the peer's contact at the packet's
    source. *)
Theorem handle_error_message (w : World) (pkt : packet) (decoded : gmap string bvalue)
  (eID eNodeID eType : string) (eArgs : bvalue) :
  DecodeBytesMap (data pkt) = inr decoded ->
  decoded !! headerTypeField = Some (BInt errorType) ->
  decoded !! headerMessageIDField = Some (BString eID) ->
  decoded !! headerNodeIDField = Some (BString eNodeID) ->
  decoded !! headerPayloadField = Some (BString eType) ->
  decoded !! headerArgsField = Some eArgs ->
  wellFormedID (id (node (dht w))) ->
  4 <= Go.len eID ->
  wellFormedID eNodeID ->
  exists w',
    handle pkt w = Returns tt w' /\
    outbox (dht w') = outbox (dht w) /\
    store (dht w') = store (dht w) /\
    routingTable (dht w') =
      Update (routingTable (dht w)) (senderNode eNodeID (raddr pkt)).
Proof.
  intros Hdec Htype Hi Hn Hp Ha Hlocal Hid Hwf.
  assert (Hnode : 4 <= Go.len eNodeID) by (rewrite Hwf; unfold nodeIDLength; lia).
  destruct type_cases as (_ & Heq & Her).
  destruct (getArgs_present eArgs) as (args & Hargs).
  unfold handle. rewrite Hdec, Htype.
  unfold mbind, M_bind. cbn [assertInt64 lift]. unfold mret at 1, M_ret at 1.
  rewrite Heq, Her, Z.eqb_refl, Hi, Hn, Hp, Ha, Hargs.
  cbn [assertString lift Error.ID Error.NodeID]. unfold mret, M_ret, getDHT, logf.
  cbn [dht now journal].
  rewrite (sliceTo_Hex _ Hlocal), (sliceTo_hex _ Hid), (sliceTo_hex _ Hnode).
  cbn [lift]. unfold mret, M_ret.
  unfold handleError, routingTableUpdate, spewDump, mbind, M_bind, getDHT, putDHT.
  cbn [dht now journal Error.NodeID].
  eexists. split; [reflexivity |]. repeat split; reflexivity.
Qed.

(** [handle] and [getArgs] (lines 206-211, 342-345): a datagram with the
    error tag panics when its message id, node id or payload entry is
    missing or is not a string, and when its arguments entry is missing. *)
Theorem handle_panics_on_malformed_error (w : World) (pkt : packet)
  (decoded : gmap string bvalue) :
  DecodeBytesMap (data pkt) = inr decoded ->
  decoded !! headerTypeField = Some (BInt errorType) ->
  (forall s, decoded !! headerMessageIDField <> Some (BString s)) \/
  (forall s, decoded !! headerNodeIDField <> Some (BString s)) \/
  (forall s, decoded !! headerPayloadField <> Some (BString s)) \/
  decoded !! headerArgsField = None ->
  exists reason, handle pkt w = Panics reason.
Proof.
  intros Hdec Htype Hbad.
  destruct type_cases as (_ & Heq & Her).
  assert (Hassert : forall v, (forall s, v <> Some (BString s)) ->
                              exists reason, assertString v = Go.Panic reason).
  { intros [[n | s | l | m] |] Hv; try (eexists; reflexivity).
    destruct (Hv s). reflexivity. }
  unfold handle. rewrite Hdec, Htype.
  unfold mbind, M_bind. cbn [assertInt64 lift]. unfold mret at 1, M_ret at 1.
  rewrite Heq, Her, Z.eqb_refl.
  destruct (assertString (decoded !! headerMessageIDField)) as [i | r1] eqn:H1i;
    cbn [lift]; [unfold mret at 1, M_ret at 1 | eexists; reflexivity].
  destruct (assertString (decoded !! headerNodeIDField)) as [n | r2] eqn:H2n;
    cbn [lift]; [unfold mret at 1, M_ret at 1 | eexists; reflexivity].
  destruct (assertString (decoded !! headerPayloadField)) as [p | r3] eqn:H3p;
    cbn [lift]; [unfold mret at 1, M_ret at 1 | eexists; reflexivity].
  destruct Hbad as [Hb | [Hb | [Hb | Hb]]].
  - destruct (Hassert _ Hb) as (reason & Hr). rewrite Hr in H1i. discriminate.
  - destruct (Hassert _ Hb) as (reason & Hr). rewrite Hr in H2n. discriminate.
  - destruct (Hassert _ Hb) as (reason & Hr). rewrite Hr in H3p. discriminate.
  - rewrite Hb. cbn [getArgs lift]. eexists. reflexivity.
Qed.

(** [handle] (lines 186-201): a datagram with the request tag that does not
    decode to a request is dropped with one error line; one with the
    response tag that does not decode to a response is dropped with no line
    at all.  Either way the node is left as it was. *)
Theorem handle_drops_undecodable_message (w : World) (pkt : packet)
  (decoded : gmap string bvalue) (err : error) :
  DecodeBytesMap (data pkt) = inr decoded ->
  (decoded !! headerTypeField = Some (BInt requestType) ->
   DecodeBytesRequest (data pkt) = inl err ->
   handle pkt w =
   Returns tt {| dht := dht w; now := now w;
                 journal := (journal w ++ [Logged ErrorLevel "%v"])%list |})
  /\
  (decoded !! headerTypeField = Some (BInt responseType) ->
   DecodeBytesResponse (data pkt) = inl err ->
   handle pkt w = Returns tt w).
Proof.
  intros Hdec. destruct type_cases as (Hrq & _). split; intros Htype Hbad;
    unfold handle; rewrite Hdec, Htype;
    unfold mbind, M_bind; cbn [assertInt64 lift]; unfold mret at 1, M_ret at 1.
  - rewrite Z.eqb_refl, Hbad. reflexivity.
  - rewrite Hrq, Z.eqb_refl, Hbad. reflexivity.
Qed.

(** [runHandler] (lines 148-157) over any run of packets, when it gets
    through them: the local node and the configuration are as before, a
    bound socket is still bound, and the datagrams written, behind those
    written before, are at most one per packet, each to the source address
    of one of the packets. *)
Theorem runHandler_answers_senders (pkts : list packet) (w w' : World) :
  runHandler pkts w = Returns tt w' ->
  node (dht w') = node (dht w) /\
  conf (dht w') = conf (dht w) /\
  (is_Some (conn (dht w)) -> is_Some (conn (dht w'))) /\
  exists l,
    outbox (dht w') = (outbox (dht w) ++ l)%list /\
    (length l <= length pkts)%nat /\
    forall x, x ∈ l -> exists pkt, pkt ∈ pkts /\ snd x = raddr pkt.
Proof.
  revert w. induction pkts as [| pkt pkts IH]; intros w Hrun.
  - inversion Hrun. repeat split; auto.
    exists []. rewrite app_nil_r. repeat split; [cbn; lia |].
    intros x Hx. inversion Hx.
  - cbn [runHandler] in Hrun. unfold mbind, M_bind in Hrun.
    destruct (handle pkt w) as [[] w1 | reason] eqn:Hpkt; [| discriminate].
    apply handle_handled in Hpkt.
    destruct Hpkt as (Hc & Hn & _ & Hs & (l1 & Ho1 & Hl1 & Ha1) & _).
    destruct (IH w1 Hrun) as (Hn' & Hc' & Hs' & (l2 & Ho2 & Hl2 & Ha2)).
    split; [congruence |]. split; [congruence |]. split; [auto |].
    exists (l1 ++ l2)%list. split; [rewrite Ho2, Ho1, app_assoc; reflexivity |].
    split; [rewrite length_app; cbn; lia |].
    intros x Hx. apply elem_of_app in Hx as [Hx | Hx].
    + exists pkt. split; [left | apply Ha1, Hx].
    + destruct (Ha2 x Hx) as (q & Hq & Hqa). exists q. split; [right; exact Hq | exact Hqa].
Qed.

(** [runHandler] (lines 148-157) keeps a running node running: after any run
    of packets it gets through, the socket is bound, the local id has its 48
    bytes, and the routing table is the one built around the local node. *)
Theorem runHandler_keeps_running (pkts : list packet) (w w' : World) :
  Running (dht w) ->
  runHandler pkts w = Returns tt w' ->
  Running (dht w').
Proof.
  revert w. induction pkts as [| pkt pkts IH]; intros w Hrunning Hrun.
  - inversion Hrun. subst. exact Hrunning.
  - cbn [runHandler] in Hrun. unfold mbind, M_bind in Hrun.
    destruct (handle pkt w) as [[] w1 | reason] eqn:Hpkt; [| discriminate].
    apply handle_handled in Hpkt.
    eapply IH; [| exact Hrun]. eapply handled_Running; eassumption.
Qed.

(** [runHandler] (lines 148-157) has no recovery: when [handle] panics on a
    packet, the loop panics with it, and the packets behind it are not
    handled. *)
Theorem runHandler_stops_at_panic (before after : list packet) (pkt : packet)
  (w w1 : World) (reason : string) :
  runHandler before w = Returns tt w1 ->
  handle pkt w1 = Panics reason ->
  runHandler (before ++ pkt :: after) w = Panics reason.
Proof.
  intros Hbefore Hpkt. rewrite runHandler_app, Hbefore.
  cbn [runHandler]. unfold mbind, M_bind. rewrite Hpkt. reflexivity.
Qed.

(** [argsToString] (lines 353-362): an argument of 48 bytes is shown as the 8
    hex digits of its first 4 bytes, a slice that is in range; every other
    argument is shown as it is; the arguments are joined by a comma and a
    space. *)
Theorem argsToString_abbreviates (args : list string) :
  (forall v, Go.len v = nodeIDLength ->
     Go.sliceTo 8 (Go.hexEncodeToString v)
     = Go.Ok (Go.hexEncodeToString (String.substring 0 4 v))) /\
  argsToString args =
  Go.join (map (fun v => if Go.len v =? nodeIDLength
                         then Go.hexEncodeToString (String.substring 0 4 v)
                         else v) args) ", ".
Proof.
  split.
  - intros v Hlen. rewrite (argsToString_slice v Hlen). f_equal. apply (hex_prefix 4).
  - unfold argsToString. f_equal. apply map_ext. intros v.
    destruct (Go.len v =? nodeIDLength); [apply (hex_prefix 4) | reflexivity].
Qed.

End Loop.

(** ** The command [ytsync] *)

Section YtsyncFacts.
Import Ytsync.
Variable FullCycle : Sync -> option error.

Lemma first_byte (name : string) :
  list_ascii_of_string name !! 0%nat = String.get 0 name.
Proof. destruct name; reflexivity. Qed.

Lemma index_args (key name : string) (rest : list string) :
  index (key :: name :: rest) 0 = Go.Ok key /\
  index (key :: name :: rest) 1 = Go.Ok name.
Proof. split; reflexivity. Qed.

(** [ytsync] (package [cmd], lines 138-176): with at least two arguments, a
    channel name that starts with [@], a number of tries of at least 1 and,
    under [--stop-on-error], the default number of tries, the command calls
    [FullCycle] once, on a [Sync] that carries the arguments and flags as they
    were given, one concurrent video, and the third argument as the channel
    id when there is one (the empty string otherwise); it logs nothing before
    the call, and afterwards only the trace of the error [FullCycle] returned,
    if any. *)
Theorem ytsync_runs_full_cycle (flags : Flags) (key name : string) (rest : list string) :
  String.get 0 name = Some "@"%char ->
  1 <= maxTries flags ->
  (stopOnError flags = true -> maxTries flags = defaultMaxTries) ->
  let s := {| YoutubeAPIKey := key;
              YoutubeChannelID := match rest with [] => "" | channelID :: _ => channelID end;
              LbryChannelName := name;
              StopOnError := stopOnError flags;
              MaxTries := maxTries flags;
              ConcurrentVideos := 1;
              TakeOverExistingChannel := takeOverExistingChannel flags;
              Refill := refill flags |} in
  ytsync FullCycle flags (key :: name :: rest)
  = Go.Ok (RanFullCycle s ::
           match FullCycle s with Some err => [ErrorTrace err] | None => [] end).
Proof.
  intros Hat Htries Hstop s. unfold ytsync.
  destruct (index_args key name rest) as [-> ->].
  unfold index. rewrite first_byte, Hat.
  change (Ascii.eqb "@" "@") with true. cbn [negb].
  assert (Hflags : (stopOnError flags && negb (maxTries flags =? defaultMaxTries))%bool = false).
  { destruct (stopOnError flags); [| reflexivity].
    rewrite (Hstop eq_refl), Z.eqb_refl. reflexivity. }
  rewrite Hflags.
  assert (Hlt : (maxTries flags <? 1) = false) by (apply Z.ltb_ge; lia).
  rewrite Hlt.
  assert (Hid : (if (2 <? length (key :: name :: rest))%nat
                 then List.nth 2 (key :: name :: rest) "" else "")
                = match rest with [] => "" | channelID :: _ => channelID end).
  { destruct rest; reflexivity. }
  rewrite Hid. fold s. destruct (FullCycle s); reflexivity.
Qed.

(** [ytsync] (lines 138-176): a run that returns either logged one error line
    and did not call [FullCycle], or called [FullCycle] exactly once, as the
    first thing it did, on a [Sync] whose channel name starts with [@], whose
    number of tries is at least 1 and, when it stops on errors, the default
    one, and with one concurrent video; no run logs an error line and calls
    [FullCycle]. *)
Theorem ytsync_reports_or_runs (flags : Flags) (args : list string) (effects : list Effect) :
  ytsync FullCycle flags args = Go.Ok effects ->
  (exists msg, effects = [Errorln msg]) \/
  (exists s, (effects = [RanFullCycle s] \/ exists err, effects = [RanFullCycle s; ErrorTrace err]) /\
     String.get 0 (LbryChannelName s) = Some "@"%char /\
     1 <= MaxTries s /\
     (StopOnError s = true -> MaxTries s = defaultMaxTries) /\
     ConcurrentVideos s = 1 /\
     args !! 0%nat = Some (YoutubeAPIKey s) /\
     args !! 1%nat = Some (LbryChannelName s)).
Proof.
  unfold ytsync, index.
  destruct (args !! 0%nat) as [key |] eqn:Hkey; [| discriminate].
  destruct (args !! 1%nat) as [name |] eqn:Hname; [| discriminate].
  rewrite first_byte.
  destruct (String.get 0 name) as [first |] eqn:Hfirst; [| discriminate].
  destruct (Ascii.eqb first "@") eqn:Hat; cbn [negb].
  2:{ intros [= <-]. left. eexists. reflexivity. }
  apply Ascii.eqb_eq in Hat. subst first.
  destruct (stopOnError flags && negb (maxTries flags =? defaultMaxTries))%bool eqn:Hflags.
  { intros [= <-]. left. eexists. reflexivity. }
  destruct (maxTries flags <? 1) eqn:Hlt.
  { intros [= <-]. left. eexists. reflexivity. }
  apply Z.ltb_ge in Hlt.
  match goal with |- context [FullCycle ?x] => set (s := x) end.
  intros Hrun. right. exists s.
  split.
  { destruct (FullCycle s) as [err |]; injection Hrun as <-;
      [right; exists err; reflexivity | left; reflexivity]. }
  cbn [s LbryChannelName MaxTries StopOnError ConcurrentVideos YoutubeAPIKey].
  repeat split; try assumption; try lia.
  intros Hstop. rewrite Hstop in Hflags. cbn [andb] in Hflags.
  apply negb_false_iff, Z.eqb_eq in Hflags. exact Hflags.
Qed.

(** [ytsync] (lines 139-141): the command panics exactly when it is given
    fewer than two arguments, which [cobra.RangeArgs(2, 3)] rules out, or an
    empty channel name, which nothing rules out: [lbryChannelName[0]] is
    evaluated before any check. *)
Theorem ytsync_panics_on_empty_channel_name (flags : Flags) (args : list string) :
  (exists reason, ytsync FullCycle flags args = Go.Panic reason) <->
  (length args < 2)%nat \/ args !! 1%nat = Some "".
Proof.
  unfold ytsync, index. split.
  - intros [reason Hrun].
    destruct args as [| key [| name rest]]; [left; cbn; lia | left; cbn; lia |].
    right. cbn [lookup list_lookup]. f_equal.
    destruct name as [| c name]; [reflexivity |]. exfalso.
    cbn in Hrun.
    repeat match type of Hrun with
           | (if ?b then _ else _) = _ => destruct b
           | match ?o with _ => _ end = _ => destruct o
           end; discriminate.
  - intros [Hlen | Hname].
    + destruct args as [| key [| name rest]]; cbn in *;
        [eexists; reflexivity | eexists; reflexivity | lia].
    + destruct args as [| key [| name rest]]; cbn in Hname; try discriminate.
      injection Hname as ->. eexists. reflexivity.
Qed.

End YtsyncFacts.

(** ** The properties on the sample node *)

Import Sample.

Ltac concrete :=
  vm_compute;
  first [ reflexivity
        | discriminate
        | exact I
        | (let E := fresh in intros E; discriminate E)
        | (eexists; reflexivity) ].

Ltac running := repeat split; concrete.

(** C1 on the sample node: P has stored key K on it, and a findValue for K
    is answered with a list of contacts (here P itself, the only contact
    known), not with the stored publisher. *)
Lemma findValue_replies_with_contacts_witness :
  Get (store (dht stored)) (peerID "K") = [peerID "P"] /\
  exists w',
    handleRequest peerAddr findValueK stored = Returns true w' /\
    outbox (dht w') =
      (outbox (dht stored) ++
       [("d1:0i1e1:14:tx011:248:LLLLLLLLLLLLLLLLLLLLLLLLLLLLLLLLLLLLLLLLLLLLLLLL1:3ll48:PPPPPPPPPPPPPPPPPPPPPPPPPPPPPPPPPPPPPPPPPPPPPPPP8:10.0.0.7i4444eeee",
         peerAddr)])%list.
Proof.
  split; [vm_compute; reflexivity |].
  apply (findValue_replies_with_contacts stored peerAddr findValueK (peerID "K") []);
    first [ running | concrete ].
Defined.

(** C2, as the spec words it, does not hold: a store request with an empty
    content key, from a peer other than the local node, returns before
    [Update]; the routing table is not what [Update] would have made it and
    does not hold the sender. *)
Lemma rejected_store_not_recorded :
  let request := request (peerID "B") storeMethod [] "" (peerID "P") in
  let sender := senderNode (Request.NodeID request) peerAddr in
  Request.NodeID request <> RawString (id (node (dht world0))) /\
  exists w',
    handleRequest peerAddr request world0 = Returns false w' /\
    routingTable (dht w') <> Update (routingTable (dht world0)) sender /\
    sender ∉ allContacts (routingTable (dht w')).
Proof.
  cbv zeta. split; [concrete |].
  eexists. split; [vm_compute; reflexivity |]. split.
  - concrete.
  - apply (bool_decide_unpack _). vm_compute. exact I.
Qed.

(** C2 on the sample node: an accepted store request. *)
Lemma sender_recorded_when_accepted_witness :
  exists w',
    handleRequest peerAddr storeK world0 = Returns true w' /\
    routingTable (dht w') =
      Update (routingTable (dht world0)) (senderNode (peerID "P") peerAddr).
Proof.
  pose proof (sender_recorded_when_accepted world0 peerAddr storeK) as Hthm.
  change (accepted storeK) with true in Hthm.
  apply Hthm; first [ running | concrete ].
Defined.

(** C3 on the sample node: the bencoded dictionary [{"0": "x"}], whose
    message type is a string. *)
Lemma handle_panics_on_non_integer_type_witness :
  DecodeBytesMap "d1:01:xe" = inr {[ "0" := BString "x" ]} /\
  exists reason, handle {| data := "d1:01:xe"; raddr := peerAddr |} world0 = Panics reason.
Proof.
  split; [vm_compute; reflexivity |].
  apply (handle_panics_on_non_integer_type world0 {| data := "d1:01:xe"; raddr := peerAddr |}
           {[ "0" := BString "x" ]} (BString "x"));
    [ vm_compute; reflexivity | vm_compute; reflexivity | intros n; discriminate ].
Defined.

(** The bencoded dictionary [{"0": 2}]: an error message with no fields. *)
Example handle_panics_on_bare_error :
  handle {| data := "d1:0i2ee"; raddr := peerAddr |} world0
  = Panics "interface conversion: interface {} is not string".
Proof. vm_compute. reflexivity. Qed.

(** C4 on the sample node: a ping and a response that claim the local id. *)
Lemma self_traffic_ignored_witness :
  (exists w',
     handleRequest peerAddr (request (peerID "L") pingMethod [] "" "") world0
     = Returns false w' /\ dht w' = dht world0) /\
  (exists w',
     handleResponse peerAddr
       {| Response.ID := "tx01"; Response.NodeID := peerID "L";
          Response.Data := "pong"; Response.FindNodeData := [] |} world0
     = Returns true w' /\ dht w' = dht world0).
Proof.
  apply (self_traffic_ignored world0 peerAddr); first [ running | concrete ].
Defined.

(** C5, amended, on the response from B. *)
Lemma response_updates_routing_table_witness :
  ~ correlated (dht world0) responseFromB /\
  exists w',
    handleResponse peerAddr responseFromB world0 = Returns true w' /\
    outbox (dht w') = outbox (dht world0) /\
    store (dht w') = store (dht world0) /\
    routingTable (dht w') =
      Update (routingTable (dht world0)) (senderNode (peerID "B") peerAddr).
Proof.
  apply (response_updates_routing_table world0 peerAddr responseFromB).
  vm_compute. reflexivity.
Defined.

(** C5, as the spec words it, does not hold: no transaction is pending,
    and the response from B still puts B into the routing table. *)
Lemma uncorrelated_response_changes_routing_table :
  ~ correlated (dht world0) responseFromB /\
  exists w',
    handleResponse peerAddr responseFromB world0 = Returns true w' /\
    dht w' <> dht world0 /\
    senderNode (peerID "B") peerAddr ∈ allContacts (routingTable (dht w')).
Proof.
  split; [apply not_elem_of_nil |].
  eexists. split; [vm_compute; reflexivity |]. split.
  - concrete.
  - apply (bool_decide_unpack _). vm_compute. exact I.
Qed.

(** C6, for every state of the routing table, does not hold: the
    twenty-first peer of a full bucket that does not cover the local id is
    answered, but [Update] drops its contact. *)
Lemma ping_from_full_bucket_not_recorded :
  let request := pingFrom 20 in
  Request.NodeID request <> RawString (id (node (dht crowded))) /\
  Request.Method request = pingMethod /\
  exists w',
    handleRequest peerAddr request crowded = Returns true w' /\
    senderNode (Request.NodeID request) peerAddr ∉ allContacts (routingTable (dht w')).
Proof.
  cbv zeta. split; [concrete |]. split; [reflexivity |].
  eexists. split; [vm_compute; reflexivity |].
  apply (bool_decide_unpack _). vm_compute. exact I.
Qed.

(** The spec's first end-to-end scenario, from the datagram on: a node with
    an empty routing table receives a ping from B, replies with the success
    payload, and has B in its routing table. *)
Example ping_end_to_end :
  exists w',
    handle {| data := pingDatagram; raddr := peerAddr |} world0 = Returns tt w' /\
    outbox (dht w') =
      [("d1:0i1e1:14:tx011:248:LLLLLLLLLLLLLLLLLLLLLLLLLLLLLLLLLLLLLLLLLLLLLLLL1:34:ponge",
        peerAddr)] /\
    allContacts (routingTable (dht w')) = [senderNode (peerID "B") peerAddr].
Proof. eexists. split; [vm_compute; reflexivity |]. split; vm_compute; reflexivity. Qed.

(** C6 on the sample node: B pings a node whose routing table is empty. *)
Lemma ping_replies_and_updates_witness :
  exists w',
    handleRequest peerAddr (request (peerID "B") pingMethod [] "" "") world0
    = Returns true w' /\
    outbox (dht w') =
      [("d1:0i1e1:14:tx011:248:LLLLLLLLLLLLLLLLLLLLLLLLLLLLLLLLLLLLLLLLLLLLLLLL1:34:ponge",
        peerAddr)] /\
    senderNode (peerID "B") peerAddr ∈ allContacts (routingTable (dht w')).
Proof.
  destruct (ping_replies_and_updates world0 peerAddr
              (request (peerID "B") pingMethod [] "" "")
              "d1:0i1e1:14:tx011:248:LLLLLLLLLLLLLLLLLLLLLLLLLLLLLLLLLLLLLLLLLLLLLLLL1:34:ponge")
    as (w' & Hrun & Hout & _ & _ & Hempty); try first [ running | concrete ].
  exists w'. split; [exact Hrun |]. split; [exact Hout |].
  apply Hempty. reflexivity.
Defined.

(** C7 on the sample node: a findNode for a 5-byte target, and one for the
    48-byte target K. *)
Lemma findNode_validates_and_replies_witness :
  (exists w',
     handleRequest peerAddr (request (peerID "C") findNodeMethod ["short"] "" "") stored
     = Returns false w' /\
     outbox (dht w') = outbox (dht stored) /\ dht w' = dht stored) /\
  (exists w',
     handleRequest peerAddr (request (peerID "C") findNodeMethod [peerID "K"] "" "") stored
     = Returns true w' /\
     outbox (dht w') =
       (outbox (dht stored) ++
        [("d1:0i1e1:14:tx011:248:LLLLLLLLLLLLLLLLLLLLLLLLLLLLLLLLLLLLLLLLLLLLLLLL1:3ll48:PPPPPPPPPPPPPPPPPPPPPPPPPPPPPPPPPPPPPPPPPPPPPPPP8:10.0.0.7i4444eeee",
          peerAddr)])%list).
Proof.
  split.
  - apply (findNode_validates_and_replies stored peerAddr
             (request (peerID "C") findNodeMethod ["short"] "" "")); [reflexivity |].
    right. exists "short", []. split; [reflexivity | concrete].
  - destruct (findNode_validates_and_replies stored peerAddr
                (request (peerID "C") findNodeMethod [peerID "K"] "" "") eq_refl)
      as [_ Hgood].
    destruct (Hgood (peerID "K") []
                "d1:0i1e1:14:tx011:248:LLLLLLLLLLLLLLLLLLLLLLLLLLLLLLLLLLLLLLLLLLLLLLLL1:3ll48:PPPPPPPPPPPPPPPPPPPPPPPPPPPPPPPPPPPPPPPPPPPPPPPP8:10.0.0.7i4444eeee")
      as (w' & Hrun & Hout & _); try first [ running | concrete ].
    exists w'. split; assumption.
Defined.

(** C8 on the sample node: a store with an empty key, and P storing K. *)
Lemma store_validates_and_inserts_witness :
  (exists w',
     handleRequest peerAddr (request (peerID "P") storeMethod [] "" (peerID "P")) world0
     = Returns false w' /\
     store (dht w') = store (dht world0) /\
     outbox (dht w') = outbox (dht world0) /\ dht w' = dht world0) /\
  (exists w',
     handleRequest peerAddr storeK world0 = Returns true w' /\
     store (dht w') = Insert (store (dht world0)) (now world0) (peerID "K") (peerID "P") /\
     peerID "P" ∈ Get (store (dht w')) (peerID "K") /\
     outbox (dht w') =
       [("d1:0i1e1:14:tx011:248:LLLLLLLLLLLLLLLLLLLLLLLLLLLLLLLLLLLLLLLLLLLLLLLL1:32:OKe",
         peerAddr)]).
Proof.
  split.
  - apply (store_validates_and_inserts world0 peerAddr
             (request (peerID "P") storeMethod [] "" (peerID "P")) eq_refl).
    reflexivity.
  - apply (store_validates_and_inserts world0 peerAddr storeK eq_refl);
      first [ running | concrete ].
Defined.

(** A request for a method the engine does not know, on the sample node. *)
Lemma unknown_method_dropped_witness :
  handleRequest peerAddr (request (peerID "B") "shutdown" [] "" "") world0 =
  Returns false {| dht := dht world0; now := now world0;
                   journal := [Logged ErrorLevel "invalid request method"] |}.
Proof.
  apply (unknown_method_dropped world0 peerAddr (request (peerID "B") "shutdown" [] "" "")).
  - apply (bool_decide_unpack _). vm_compute. exact I.
  - concrete.
Defined.

(** C10 on the sample platform: [New(nil)], an address with no port, and a
    port that is no number. *)
Lemma New_defaults_and_panics_witness :
  New (peerID "R") None
  = Go.Ok {| conf := NewStandardConfig; conn := None;
             node := {| id := peerID "R"; ip := ""; port := 4444 |};
             routingTable := newRoutingTable {| id := peerID "R"; ip := ""; port := 4444 |};
             store := newPeerStore |} /\
  (exists reason,
     New (peerID "R") (Some {| Address := "localhost"; SeedNodes := []; NodeID := "" |})
     = Go.Panic reason) /\
  (exists reason,
     New (peerID "R") (Some {| Address := "localhost:dht"; SeedNodes := []; NodeID := "" |})
     = Go.Panic reason).
Proof.
  destruct (New_defaults_and_panics (peerID "R")) as [_ Hbad]; [reflexivity | reflexivity |].
  split; [reflexivity |]. split; apply Hbad.
  - left. eexists. reflexivity.
  - right. eexists _, _, _. split; reflexivity.
Defined.

(** ** Sending, start-up and the loop on the sample node *)

(** [send] on the sample node: the pong is written once. *)
Lemma send_writes_once_or_reports_witness :
  send peerAddr pong world0 = Returns None (after (send peerAddr pong) world0) /\
  outbox (dht (after (send peerAddr pong) world0)) =
    [("d1:0i1e1:14:tx011:248:LLLLLLLLLLLLLLLLLLLLLLLLLLLLLLLLLLLLLLLLLLLLLLLL1:34:ponge",
      peerAddr)].
Proof.
  split; [vm_compute; reflexivity |].
  destruct (send_writes_once_or_reports world0 (after (send peerAddr pong) world0)
              peerAddr pong None) as (_ & _ & _ & Henc); [vm_compute; reflexivity |].
  vm_compute. reflexivity.
Defined.

(** A response with a 2-byte id. *)
Lemma send_panics_on_short_id_witness :
  send peerAddr
    (MsgResponse {| Response.ID := "tx"; Response.NodeID := peerID "L";
                    Response.Data := "pong"; Response.FindNodeData := [] |}) world0
  = Panics "slice bounds out of range".
Proof.
  apply (send_panics_on_short_id world0 peerAddr _ "tx"); [reflexivity | concrete].
Defined.

(** [New] on a configuration with an id and an address of its own. *)
Lemma New_uses_config_witness :
  New (peerID "R") (Some configured)
  = Go.Ok {| conf := configured; conn := None;
             node := {| id := peerID "N"; ip := "localhost"; port := 5555 |};
             routingTable := newRoutingTable {| id := peerID "N"; ip := "localhost"; port := 5555 |};
             store := newPeerStore |} /\
  newBitmapFromHex (NodeID configured) = Go.Ok (peerID "N").
Proof.
  split; [vm_compute; reflexivity |].
  destruct (New_uses_config (peerID "R") (Some configured)
              {| conf := configured; conn := None;
                 node := {| id := peerID "N"; ip := "localhost"; port := 5555 |};
                 routingTable :=
                   newRoutingTable {| id := peerID "N"; ip := "localhost"; port := 5555 |};
                 store := newPeerStore |})
    as (_ & _ & _ & _ & _ & _ & Hhex); [vm_compute; reflexivity |].
  apply Hhex. concrete.
Defined.

(** The node of [New(nil)] cannot send the pong. *)
Lemma fresh_node_cannot_send_witness :
  exists reason, send peerAddr pong unbound = Panics reason.
Proof.
  apply (fresh_node_cannot_send (peerID "L") None (dht unbound) peerAddr pong
           "d1:0i1e1:14:tx011:248:LLLLLLLLLLLLLLLLLLLLLLLLLLLLLLLLLLLLLLLLLLLLLLLL1:34:ponge"
           1000 []);
    vm_compute; reflexivity.
Defined.

(** [New(nil)] then [init] on the sample network. *)
Lemma New_then_init_runs_witness :
  exists w',
    init unbound = Returns tt w' /\
    Running (dht w') /\
    outbox (dht w') = [] /\
    allContacts (routingTable (dht w')) = [] /\
    store (dht w') = newPeerStore /\
    node (dht w') = localNode.
Proof.
  apply (New_then_init_runs (peerID "L") None (dht unbound) 1000 []);
    first [ vm_compute; reflexivity | concrete ].
Defined.

(** The ping of B on the sample node: one datagram, to B's address. *)
Lemma handle_answers_only_the_sender_witness :
  exists l,
    outbox (dht (after (handle (packetFrom pingDatagram)) world0)) = (outbox (dht world0) ++ l)%list /\
    (length l <= 1)%nat /\
    forall x, x ∈ l -> snd x = peerAddr.
Proof.
  apply (handle_answers_only_the_sender world0 _ (packetFrom pingDatagram)).
  vm_compute. reflexivity.
Defined.

(** The ping of B: the routing table takes B's contact and nothing else
    changes. *)
Lemma handle_changes_only_sender_and_store_witness :
  let w' := after (handle (packetFrom pingDatagram)) world0 in
  conf (dht w') = conf (dht world0) /\
  node (dht w') = node (dht world0) /\
  (routingTable (dht w') = routingTable (dht world0) \/
   exists nodeID,
     routingTable (dht w') = Update (routingTable (dht world0)) (senderNode nodeID peerAddr)) /\
  (store (dht w') = store (dht world0) \/
   exists key publisher,
     key <> "" /\ store (dht w') = Insert (store (dht world0)) (now world0) key publisher).
Proof.
  apply (handle_changes_only_sender_and_store world0 _ (packetFrom pingDatagram)).
  vm_compute. reflexivity.
Defined.

(** The ping of B, from the datagram to [handleRequest]. *)
Lemma handle_request_message_witness :
  handle (packetFrom pingDatagram) world0 =
  match handleRequest peerAddr (requestOf pingDatagram)
          {| dht := dht world0; now := now world0;
             journal := [Logged DebugLevel
                           "[%s] query %s: received request from %s: %s(%s)"] |}
  with
  | Returns _ w' => Returns tt w'
  | Panics reason => Panics reason
  end.
Proof.
  apply (handle_request_message world0 (packetFrom pingDatagram) (decodedOf pingDatagram)
           (requestOf pingDatagram));
    first [ vm_compute; reflexivity | concrete ].
Defined.

(** A ping with a 2-byte transaction id. *)
Lemma handle_panics_on_short_request_id_witness :
  handle (packetFrom shortIDDatagram) world0 = Panics "slice bounds out of range".
Proof.
  apply (handle_panics_on_short_request_id world0 (packetFrom shortIDDatagram)
           (decodedOf shortIDDatagram) (requestOf shortIDDatagram));
    [ vm_compute; reflexivity | vm_compute; reflexivity | vm_compute; reflexivity |].
  left. concrete.
Defined.

(** A response from B. *)
Lemma handle_response_message_witness :
  exists w',
    handle (packetFrom responseDatagram) world0 = Returns tt w' /\
    outbox (dht w') = outbox (dht world0) /\
    store (dht w') = store (dht world0) /\
    routingTable (dht w') =
      Update (routingTable (dht world0)) (senderNode (peerID "B") peerAddr).
Proof.
  apply (handle_response_message world0 (packetFrom responseDatagram)
           (decodedOf responseDatagram) (responseOf responseDatagram));
    first [ vm_compute; reflexivity | concrete ].
Defined.

(** An error message from B with an empty list of arguments. *)
Lemma handle_error_message_witness :
  exists w',
    handle (packetFrom errorDatagram) world0 = Returns tt w' /\
    outbox (dht w') = outbox (dht world0) /\
    store (dht w') = store (dht world0) /\
    routingTable (dht w') =
      Update (routingTable (dht world0)) (senderNode (peerID "B") peerAddr).
Proof.
  apply (handle_error_message world0 (packetFrom errorDatagram) (decodedOf errorDatagram)
           "tx01" (peerID "B") "exception" (BList []));
    first [ vm_compute; reflexivity | concrete ].
Defined.

(** An error message with no entry but its type. *)
Lemma handle_panics_on_malformed_error_witness :
  exists reason, handle (packetFrom bareErrorDatagram) world0 = Panics reason.
Proof.
  apply (handle_panics_on_malformed_error world0 (packetFrom bareErrorDatagram)
           (decodedOf bareErrorDatagram));
    [ vm_compute; reflexivity | vm_compute; reflexivity |].
  left. intros s. vm_compute. discriminate.
Defined.

(** A datagram whose request does not decode: its sender id has 3 bytes. *)
Lemma handle_drops_undecodable_message_witness :
  handle (packetFrom "d1:0i0e1:14:tx011:23:abc1:34:pinge") world0 =
  Returns tt {| dht := dht world0; now := now world0;
                journal := [Logged ErrorLevel "%v"] |}.
Proof.
  destruct (handle_drops_undecodable_message world0
              (packetFrom "d1:0i0e1:14:tx011:23:abc1:34:pinge")
              (decodedOf "d1:0i0e1:14:tx011:23:abc1:34:pinge")
              "bencode: cannot decode into a request") as [Hrequest _];
    [vm_compute; reflexivity |].
  apply Hrequest; vm_compute; reflexivity.
Defined.

(** A ping and a response from B, one after the other: one reply. *)
Lemma runHandler_answers_senders_witness :
  let pkts := [packetFrom pingDatagram; packetFrom responseDatagram] in
  let w' := after (runHandler pkts) world0 in
  node (dht w') = node (dht world0) /\
  conf (dht w') = conf (dht world0) /\
  (is_Some (conn (dht world0)) -> is_Some (conn (dht w'))) /\
  exists l,
    outbox (dht w') = (outbox (dht world0) ++ l)%list /\
    (length l <= length pkts)%nat /\
    forall x, x ∈ l -> exists pkt, pkt ∈ pkts /\ snd x = raddr pkt.
Proof.
  apply (runHandler_answers_senders
           [packetFrom pingDatagram; packetFrom responseDatagram] world0).
  vm_compute. reflexivity.
Defined.

Lemma runHandler_keeps_running_witness :
  Running (dht (after (runHandler [packetFrom pingDatagram; packetFrom responseDatagram])
                  world0)).
Proof.
  apply (runHandler_keeps_running
           [packetFrom pingDatagram; packetFrom responseDatagram] world0).
  - running.
  - vm_compute. reflexivity.
Defined.

(** A ping, then the datagram with a string for its type, then a ping that
    is never handled. *)
Lemma runHandler_stops_at_panic_witness :
  runHandler ([packetFrom pingDatagram] ++ packetFrom badDatagram :: [packetFrom pingDatagram])
    world0
  = Panics "interface conversion: interface {} is not int64".
Proof.
  apply (runHandler_stops_at_panic [packetFrom pingDatagram] [packetFrom pingDatagram]
           (packetFrom badDatagram) world0
           (after (runHandler [packetFrom pingDatagram]) world0));
    vm_compute; reflexivity.
Defined.

(** ** The command [ytsync] on sample arguments *)

Lemma ytsync_runs_full_cycle_witness :
  exists s, Ytsync.YoutubeChannelID s = "UC123" /\
    Ytsync.ytsync sampleFullCycle defaultFlags ["key"; "@lbry"; "UC123"]
    = Go.Ok [Ytsync.RanFullCycle s].
Proof.
  eexists. split;
    [| apply (ytsync_runs_full_cycle sampleFullCycle defaultFlags "key" "@lbry" ["UC123"]);
       [reflexivity | vm_compute; discriminate | reflexivity]].
  reflexivity.
Defined.

Lemma ytsync_reports_or_runs_witness :
  (exists msg, [Ytsync.Errorln "setting --max-tries less than 1 doesn't make sense"]
               = [Ytsync.Errorln msg]) \/
  (exists s, ([Ytsync.Errorln "setting --max-tries less than 1 doesn't make sense"]
              = [Ytsync.RanFullCycle s] \/
              exists err, [Ytsync.Errorln "setting --max-tries less than 1 doesn't make sense"]
                          = [Ytsync.RanFullCycle s; Ytsync.ErrorTrace err]) /\
     String.get 0 (Ytsync.LbryChannelName s) = Some "@"%char /\
     1 <= Ytsync.MaxTries s /\
     (Ytsync.StopOnError s = true -> Ytsync.MaxTries s = Ytsync.defaultMaxTries) /\
     Ytsync.ConcurrentVideos s = 1 /\
     ["key"; "@lbry"] !! 0%nat = Some (Ytsync.YoutubeAPIKey s) /\
     ["key"; "@lbry"] !! 1%nat = Some (Ytsync.LbryChannelName s)).
Proof.
  apply (ytsync_reports_or_runs sampleFullCycle
           {| Ytsync.stopOnError := false; Ytsync.maxTries := 0;
              Ytsync.takeOverExistingChannel := false; Ytsync.refill := 0 |}
           ["key"; "@lbry"]).
  reflexivity.
Defined.
